(** * Portfolio stress-test engine: the two calculators of [app.py]

    [app.py] is a Streamlit script.  Its logical core is two straight-line
    numeric pipelines, one per tab:

    - the "Sunita" longevity engine (lines 56-98): a 30-iteration loop that
      draws a retirement corpus down, followed by the metric row;
    - the "Shekhar" solvency engine (lines 129-156): a closed-form solvency
      ratio and a four-year goal projection.

    The widgets, the chart calls and the CSS are not modelled; the values the
    widgets return are the arguments of the definitions below.

    Numbers.  Python [int]s are [Z].  Python [float]s are modelled by exact
    rationals ([Q]): [+], [-], [*], [/] and [**] are the exact operations, so
    every statement below is about the arithmetic the script writes down, not
    about binary64 rounding.  For the solvency engine, whose claimed part uses
    only correctly rounded operations on a finite slider range, the module
    [Binary64] re-runs the same expressions on primitive floats.

    Overflow.  Python raises [OverflowError] when a float operation leaves the
    binary64 range (a power at line 71 or 143, an [int] too large to convert
    at lines 72, 131 or 143).  Exact rationals have no such limit, so that
    exception is not modelled: it needs inputs of absurd magnitude (an
    inflation rate around 1e13, an integer beyond 2^1024).  Statements that
    say the script returns are therefore made on bounded inputs. *)

From Stdlib Require Import ZArith QArith Qpower String List Sorted Bool Lia Lqa.
From Stdlib Require Import Floats.
Import ListNotations.

Set Warnings "-notation-for-abbreviation,-inexact-float".
Local Open Scope Z_scope.

(** ** Python values and operators used by the script *)

(** The only exception the modelled lines can raise. *)
Inductive exn : Type :=
| TypeError.

Inductive outcome (A : Type) : Type :=
| Returned (a : A)
| Raised (e : exn).
Arguments Returned {A} a.
Arguments Raised {A} e.

Definition bind {A B : Type} (m : outcome A) (k : A -> outcome B) : outcome B :=
  match m with
  | Returned a => k a
  | Raised e => Raised e
  end.

Notation "x <- m ;; k" := (bind m (fun x => k))
  (at level 61, m at next level, right associativity).

(** [depletion_age] holds the string ["95+"] until an integer age is stored
    in it: a value of the union [str | int]. *)
Inductive pyval : Type :=
| PStr (s : string)
| PInt (n : Z).

(** [v == s] for a string literal [s]: an [int] never equals a [str]. *)
Definition py_eq_str (v : pyval) (s : string) : bool :=
  match v with
  | PStr t => String.eqb t s
  | PInt _ => false
  end.

(** [v < n] for an integer literal [n]: ordering a [str] against an [int]
    raises [TypeError]. *)
Definition py_lt_int (v : pyval) (n : Z) : outcome bool :=
  match v with
  | PInt a => Returned (a <? n)
  | PStr _ => Raised TypeError
  end.

(** The two-argument builtin [max(a, b)]: [b] when [b > a], otherwise [a]. *)
Definition py_max (a b : Q) : Q :=
  if Qlt_le_dec a b then b else a.

(** [range(lo, hi)]. *)
Definition range (lo hi : Z) : list Z :=
  map (fun i => lo + Z.of_nat i) (seq 0 (Z.to_nat (hi - lo))).

(** ** Tab 1: the longevity engine (Sunita) *)

(** One dictionary appended to [simulation_data]. *)
Record row : Type := { Age : Z; Corpus : Q }.

(** The variables the loop assigns. *)
Record env : Type := {
  current_corpus : Q;
  depletion_age : pyval;
  status_color : string;
  simulation_data : list row
}.

Definition set_current_corpus (q : Q) (st : env) : env :=
  {| current_corpus := q;
     depletion_age := depletion_age st;
     status_color := status_color st;
     simulation_data := simulation_data st |}.

Definition set_depletion_age (v : pyval) (st : env) : env :=
  {| current_corpus := current_corpus st;
     depletion_age := v;
     status_color := status_color st;
     simulation_data := simulation_data st |}.

Definition set_status_color (c : string) (st : env) : env :=
  {| current_corpus := current_corpus st;
     depletion_age := depletion_age st;
     status_color := c;
     simulation_data := simulation_data st |}.

(** [simulation_data.append(r)]. *)
Definition append_row (r : row) (st : env) : env :=
  {| current_corpus := current_corpus st;
     depletion_age := depletion_age st;
     status_color := status_color st;
     simulation_data := simulation_data st ++ [r] |}.

Definition corpus : Z := 2500000.
Definition pension : Z := 300000.
Definition base_living_expense : Z := 480000.

Section Sunita.

(** The three widget values. *)
Variable inflation : Q.
Variable rent_strategy : string.
Variable medical_shock : Z.

Definition rent_expense : Z :=
  if String.eqb rent_strategy "Paying Rent (₹10k/mo)" then 120000 else 0.

Definition total_expense_y1 : Z := base_living_expense + rent_expense.

(** Lines 71-72. *)
Definition annual_expense (year : Z) : Q :=
  let annual_expense :=
    (inject_Z total_expense_y1 * (1 + inflation / 100) ^ (year - 1))%Q in
  if year =? 5 then (annual_expense + inject_Z medical_shock)%Q
  else annual_expense.

(** Lines 75-80: the year's drawdown is taken out of the corpus. *)
Definition draw_down (year : Z) (st : env) : env :=
  let portfolio_income := py_max 0 (current_corpus st * 0.078) in
  let total_inflow := (inject_Z pension + portfolio_income)%Q in
  let drawdown := py_max 0 (annual_expense year - total_inflow) in
  set_current_corpus (current_corpus st - drawdown)%Q st.

(** Lines 82-86: the clamp at zero and the first-crossing record. *)
Definition clamp (age : Z) (st : env) : env :=
  if Qle_bool (current_corpus st) 0 then
    let st := set_current_corpus 0 st in
    if py_eq_str (depletion_age st) "95+" then
      set_status_color "red" (set_depletion_age (PInt age) st)
    else st
  else st.

(** One iteration of the [for] loop, lines 69-88. *)
Definition loop_body (st : env) (year : Z) : env :=
  let age := 65 + year in
  let st := draw_down year st in
  let st := clamp age st in
  append_row {| Age := age; Corpus := current_corpus st |} st.

(** Lines 62-65. *)
Definition init : env :=
  {| current_corpus := inject_Z corpus;
     depletion_age := PStr "95+";
     status_color := "green";
     simulation_data := [] |}.

(** The loop run over a list of years. *)
Definition loop (years : list Z) : env := fold_left loop_body years init.

(** Line 68: [for year in range(1, 31)]. *)
Definition simulate : env := loop (range 1 31).

(** Line 95, the value formatted into the "Monthly Gap" metric. *)
Definition monthly_gap : Q := inject_Z (total_expense_y1 - pension) / 12.

(** Line 97, the [delta] of the "Projected Depletion Age" metric;
    [and] evaluates its right operand only when the left one is true. *)
Definition depletion_delta (st : env) : outcome string :=
  critical <-
    (if String.eqb (status_color st) "red"
     then py_lt_int (depletion_age st) 80
     else Returned false) ;;
  Returned (if critical then "Critical" else "Safe")%string.

(** What the tab hands to the display calls. *)
Record sunita_view : Type := {
  df_sunita : list row;
  m1_monthly_gap : Q;
  m2_depletion_age : pyval;
  m2_delta : string;
  line_color : string
}.

Definition sunita : outcome sunita_view :=
  let st := simulate in
  delta <- depletion_delta st ;;
  Returned
    {| df_sunita := simulation_data st;
       m1_monthly_gap := monthly_gap;
       m2_depletion_age := depletion_age st;
       m2_delta := delta;
       line_color :=
         if String.eqb (status_color st) "red" then "#ef4444" else "#10b981" |}.

End Sunita.

(** The widget declarations of lines 49-52: a slider over [4.0, 10.0], a
    radio with two options and a select box with three amounts. *)
Definition rent_options : list string :=
  ["Paying Rent (₹10k/mo)"; "Move to Family Home (₹0)"]%string.

Definition medical_shock_options : list Z := [0; 300000; 500000].

Definition valid_sunita (inflation : Q) (rent_strategy : string)
    (medical_shock : Z) : Prop :=
  (4 <= inflation /\ inflation <= 10)%Q /\
  In rent_strategy rent_options /\
  In medical_shock medical_shock_options.

(** ** Tab 2: the solvency engine (Shekhar) *)

Definition initial_corpus : Z := 40000000.
Definition arbitrage_val : Z := 10000000.
Definition bond_val : Z := 10000000.
Definition annual_debt_obligation : Z := 16600000.

Section Shekhar.

(** The two slider values, both Python [int]s. *)
Variable market_crash : Z.
Variable house_inflation : Z.

(** Line 131. *)
Definition equity_val : Q := 16000000 * (1 - inject_Z market_crash / 100).

(** Line 134. *)
Definition gold_val : Q := 4000000 * (if market_crash >? 15 then 1.10 else 1.0).

(** Line 136. *)
Definition total_liquid_assets : Q :=
  equity_val + inject_Z arbitrage_val + inject_Z bond_val + gold_val.

(** Line 140. *)
Definition solvency_ratio : Q :=
  total_liquid_assets / inject_Z annual_debt_obligation.

(** Lines 143-146. *)
Definition house_cost : Q := 30000000 * (1.05 + inject_Z house_inflation / 100) ^ 4.
Definition projected_wealth : Q := total_liquid_assets * 1.09 ^ 4.
Definition surplus : Q := projected_wealth - house_cost.

(** The test [solvency_ratio >= 2.0] of lines 154, 156 and 169. *)
Definition is_safe : bool := Qle_bool 2.0 solvency_ratio.

(** Line 154. *)
Definition delta_msg : string :=
  if is_safe then "SAFE (>2.0x)" else "RISK (<2.0x)".

(** What the tab hands to the display calls. *)
Record shekhar_view : Type := {
  k2_solvency_ratio : Q;
  k2_delta : string;
  k3_surplus : Q;
  k3_delta : string
}.

Definition shekhar : shekhar_view :=
  {| k2_solvency_ratio := solvency_ratio;
     k2_delta := delta_msg;
     k3_surplus := surplus;
     k3_delta := if Qlt_le_dec 0 surplus then "Funded" else "Gap" |}.

End Shekhar.

(** ** Predicates and helpers the statements use

    These describe runs of the longevity loop; none of them is part of the
    script. *)

(** *** The two phases of a run *)

(** Nothing recorded yet: the corpus and every point so far are positive. *)
Definition solvent (st : env) : Prop :=
  depletion_age st = PStr "95+" /\
  status_color st = "green"%string /\
  (0 < current_corpus st)%Q /\
  Forall (fun r => (0 < Corpus r)%Q) (simulation_data st).

(** Depleted at age [a]: the point of age [a] is the first at zero, the
    points before it are positive, the points after it are zero. *)
Definition depleted_at (a : Z) (st : env) : Prop :=
  depletion_age st = PInt a /\
  status_color st = "red"%string /\
  current_corpus st = 0%Q /\
  exists pre post,
    simulation_data st = pre ++ {| Age := a; Corpus := 0 |} :: post /\
    Forall (fun r => (0 < Corpus r)%Q) pre /\
    Forall (fun r => Corpus r = 0%Q) post.

Definition phase (st : env) : Prop :=
  solvent st \/ exists a, depleted_at a st.

(** The first point of the series whose corpus is zero, if any. *)
Definition first_zero (data : list row) : option row :=
  find (fun r => Qeq_bool (Corpus r) 0) data.

(** An outcome that is an exception: the input was turned down. *)
Definition rejects {A : Type} (o : outcome A) : Prop :=
  exists e, o = Raised e.

(** The years of the first [n] iterations: [range(1, n + 1)]. *)
Definition years_upto (n : nat) : list Z := map Z.of_nat (seq 1 n).

(** [no_later d2 d1]: when [d1] is an age, [d2] is an age too and is not a
    later one. *)
Definition no_later (d2 d1 : pyval) : Prop :=
  match d1 with
  | PInt a1 => exists a2, d2 = PInt a2 /\ a2 <= a1
  | PStr _ => True
  end.

(** *** Evaluating a run

    The loop builds its rationals without reducing them, so their size doubles
    every year.  To evaluate a run at given inputs the corpus is reduced to
    lowest terms after each iteration; [env_eq] relates the two runs. *)

Definition normalize (st : env) : env :=
  set_current_corpus (Qred (current_corpus st)) st.

Definition loop_normalized (inflation : Q) (rent_strategy : string)
    (medical_shock : Z) (years : list Z) : env :=
  fold_left
    (fun st year => normalize (loop_body inflation rent_strategy medical_shock st year))
    years init.

(** Same corpus as a rational number, same [depletion_age]. *)
Definition env_eq (s t : env) : Prop :=
  (current_corpus s == current_corpus t)%Q /\
  depletion_age s = depletion_age t.

(** ** The solvency ratio on binary64

    The same expressions as lines 131-140, evaluated on IEEE 754 binary64
    with round-to-nearest, which is what Python computes: [int / int] and the
    four operations on floats are correctly rounded, and the integer literals
    involved are exactly representable.  [market_crash] is a slider value, a
    non-negative integer. *)
Module Binary64.

(** [float(n)] for [0 <= n < 2^53]. *)
Definition of_int (n : Z) : float := PrimFloat.of_uint63 (Uint63.of_Z n).

Definition equity_val (market_crash : Z) : float :=
  (16000000 * (1 - of_int market_crash / of_int 100))%float.

Definition gold_val (market_crash : Z) : float :=
  (4000000 * (if market_crash >? 15 then 1.10 else 1.0))%float.

Definition total_liquid_assets (market_crash : Z) : float :=
  (equity_val market_crash + of_int arbitrage_val + of_int bond_val
   + gold_val market_crash)%float.

Definition solvency_ratio (market_crash : Z) : float :=
  (total_liquid_assets market_crash / of_int annual_debt_obligation)%float.

Definition is_safe (market_crash : Z) : bool :=
  (2.0 <=? solvency_ratio market_crash)%float.

End Binary64.

(** ** The gauge of the solvency tab

    Lines 163-178: the indicator is fed the ratio, an axis from 0 to 4, a bar
    colour chosen by the same test as the badge, and a threshold mark at 2.0. *)
Record gauge : Type := {
  gauge_value : Q;
  axis_range : Q * Q;
  bar_color : string;
  threshold_value : Q
}.

Definition fig_gauge (market_crash : Z) : gauge :=
  {| gauge_value := solvency_ratio market_crash;
     axis_range := (0%Q, 4%Q);
     bar_color :=
       if Qle_bool 2.0 (solvency_ratio market_crash) then "#10b981" else "#ef4444";
     threshold_value := 2.0%Q |}.

(** ** Comparing two wealth curves *)

(** [curve_below d2 d1]: the two series have the same ages and, age by age,
    the corpus of [d2] is at most the corpus of [d1]. *)
Definition curve_below (d2 d1 : list row) : Prop :=
  Forall2 (fun p2 p1 => Age p2 = Age p1 /\ (Corpus p2 <= Corpus p1)%Q) d2 d1.

(** [falls p q]: the later point [q] holds no more than the earlier one [p]. *)
Definition falls (p q : row) : Prop := (Corpus q <= Corpus p)%Q.

(** * Properties *)

Local Open Scope Q_scope.

(** Linear arithmetic over [Q], with divisions by literals turned into
    multiplications by their inverses first. *)
Ltac qlra := unfold Qdiv in *; cbn [Qinv Qnum Qden] in *; lra.

(** ** The solvency engine *)

Lemma gold_val_hedged (market_crash : Z) :
  (15 < market_crash)%Z -> gold_val market_crash == 4400000.
Proof.
  intros H. unfold gold_val.
  replace (market_crash >? 15)%Z with true by lia. reflexivity.
Qed.

Lemma gold_val_flat (market_crash : Z) :
  (market_crash <= 15)%Z -> gold_val market_crash == 4000000.
Proof.
  intros H. unfold gold_val.
  replace (market_crash >? 15)%Z with false by lia. reflexivity.
Qed.

Lemma equity_val_linear (market_crash : Z) :
  equity_val market_crash == 16000000 - 160000 * inject_Z market_crash.
Proof. unfold equity_val. qlra. Qed.

(** Below the hedge threshold the ratio is an affine function of the crash. *)
Lemma solvency_ratio_flat (market_crash : Z) :
  (market_crash <= 15)%Z ->
  solvency_ratio market_crash
  == (40000000 - 160000 * inject_Z market_crash) / 16600000.
Proof.
  intros H. unfold solvency_ratio, total_liquid_assets.
  rewrite (gold_val_flat _ H), equity_val_linear.
  unfold arbitrage_val, bond_val, annual_debt_obligation.
  change (inject_Z 10000000) with 10000000.
  change (inject_Z 16600000) with 16600000. qlra.
Qed.

(** C2: the gold bucket is worth 4,000,000 x 1.10 exactly when the crash is
    strictly above 15 and 4,000,000 exactly when it is not; at a crash of 15
    the hedge is off; and the solvency ratio at a crash of 16 is strictly
    greater than at 15. *)
Theorem gold_hedge_threshold :
  (forall market_crash : Z,
      (gold_val market_crash == 4000000 * 1.10 <-> (market_crash > 15)%Z) /\
      (gold_val market_crash == 4000000 <-> ~ (market_crash > 15)%Z)) /\
  gold_val 15 == 4000000 /\
  solvency_ratio 15 < solvency_ratio 16.
Proof.
  split; [| split; [reflexivity | reflexivity]].
  intros mc. destruct (Z_le_gt_dec mc 15) as [Hle | Hgt].
  - pose proof (gold_val_flat mc Hle) as Hg. split; split; intros H.
    + rewrite Hg in H. discriminate H.
    + lia.
    + lia.
    + exact Hg.
  - assert (Hlt : (15 < mc)%Z) by lia.
    pose proof (gold_val_hedged mc Hlt) as Hg. split; split; intros H.
    + exact Hgt.
    + rewrite Hg. reflexivity.
    + rewrite Hg in H. discriminate H.
    + lia.
Qed.

(** C3, as the spec words it, fails: at a crash of 50 the equity bucket is
    not worth 0. *)
Lemma equity_not_zero_at_crash_50 : ~ equity_val 50 == 0.
Proof. intros H. discriminate H. Qed.

(** C3, amended: at a crash of 50 the equity bucket is worth 8,000,000, half
    of its 16,000,000 allocation; it is worth 0 only at a crash of 100. *)
Theorem equity_half_at_crash_50 :
  equity_val 50 == 8000000 /\
  (forall market_crash : Z, equity_val market_crash == 0 <-> market_crash = 100%Z).
Proof.
  split; [reflexivity |].
  intros mc. rewrite equity_val_linear. split; intros H.
  - apply (proj1 (inject_Z_injective mc 100)).
    change (inject_Z 100) with 100. lra.
  - subst mc. reflexivity.
Qed.

(** C4: at a crash of 50, whatever the house-price surge, equity is 8,000,000,
    gold 4,400,000, liquid assets 32,400,000, the ratio shown is
    32,400,000 / 16,600,000, which is 1.95 to two decimals, and the badge is
    the "RISK" one ([solvency_ratio >= 2.0] is false). *)
Theorem crash_50_evaluation (house_inflation : Z) :
  equity_val 50 == 8000000 /\
  gold_val 50 == 4400000 /\
  total_liquid_assets 50 == 32400000 /\
  k2_solvency_ratio (shekhar 50 house_inflation) == 32400000 / 16600000 /\
  (1.95 <= k2_solvency_ratio (shekhar 50 house_inflation) < 1.955) /\
  is_safe 50 = false /\
  k2_delta (shekhar 50 house_inflation) = "RISK (<2.0x)"%string.
Proof.
  repeat split; try reflexivity; simpl k2_solvency_ratio;
    intros H; discriminate H.
Qed.

(** C5: with the house-price surge held fixed, the ratio shown strictly
    decreases in the crash as long as the crash stays at or below 15. *)
Theorem solvency_ratio_decreasing (house_inflation a b : Z) :
  (a < b <= 15)%Z ->
  k2_solvency_ratio (shekhar b house_inflation)
  < k2_solvency_ratio (shekhar a house_inflation).
Proof.
  intros [Hab Hb]. simpl.
  rewrite !solvency_ratio_flat by lia.
  assert (Hq : inject_Z a < inject_Z b) by (rewrite <- Zlt_Qlt; exact Hab).
  qlra.
Qed.

Lemma solvency_ratio_decreasing_witness :
  (10 < 15 <= 15)%Z /\
  k2_solvency_ratio (shekhar 15 5) < k2_solvency_ratio (shekhar 10 5).
Proof.
  split; [lia | apply (solvency_ratio_decreasing 5 10 15); lia].
Defined.

(** *** The same facts on binary64 *)

Lemma in_range (lo hi x : Z) : (lo <= x < hi)%Z -> In x (range lo hi).
Proof.
  intros H. unfold range. apply in_map_iff.
  exists (Z.to_nat (x - lo)). split; [lia | apply in_seq; lia].
Qed.

(** Rounding does not disturb the evaluation at a crash of 50. *)
Lemma binary64_crash_50 :
  Binary64.equity_val 50 = 8000000%float /\
  Binary64.gold_val 50 = 4400000%float /\
  Binary64.total_liquid_assets 50 = 32400000%float /\
  Binary64.solvency_ratio 50 = (32400000 / 16600000)%float /\
  Binary64.is_safe 50 = false.
Proof. vm_compute. repeat split. Qed.

(** Nor the step of the hedge between 15 and 16. *)
Lemma binary64_hedge_step :
  Binary64.gold_val 15 = 4000000%float /\
  Binary64.gold_val 16 = 4400000%float /\
  (Binary64.solvency_ratio 15 <? Binary64.solvency_ratio 16)%float = true.
Proof. vm_compute. repeat split. Qed.

(** On every slider value the badge test gives the same answer on binary64 as
    in exact arithmetic, including at a crash of 45, where the exact ratio is
    2 on the nose. *)
Lemma binary64_is_safe_agrees (market_crash : Z) :
  (0 <= market_crash <= 50)%Z ->
  Binary64.is_safe market_crash = is_safe market_crash.
Proof.
  intros H.
  assert (Hall :
    forallb (fun mc => Bool.eqb (Binary64.is_safe mc) (is_safe mc)) (range 0 51)
    = true) by (vm_compute; reflexivity).
  rewrite forallb_forall in Hall.
  apply eqb_prop, Hall, in_range. lia.
Qed.

(** Nor the strict decrease up to 15, checked on every pair of crash values. *)
Lemma binary64_ratio_decreases (a b : Z) :
  (0 <= a < b)%Z -> (b <= 15)%Z ->
  (Binary64.solvency_ratio b <? Binary64.solvency_ratio a)%float = true.
Proof.
  intros Ha Hb.
  assert (Hall :
    forallb (fun a =>
      forallb (fun b =>
        implb ((a <? b)%Z && (b <=? 15)%Z)
              (Binary64.solvency_ratio b <? Binary64.solvency_ratio a)%float)
        (range 0 16))
      (range 0 16) = true) by (vm_compute; reflexivity).
  rewrite forallb_forall in Hall.
  specialize (Hall a (in_range 0 16 a ltac:(lia))).
  rewrite forallb_forall in Hall.
  specialize (Hall b (in_range 0 16 b ltac:(lia))).
  replace (a <? b)%Z with true in Hall by lia.
  replace (b <=? 15)%Z with true in Hall by lia.
  exact Hall.
Qed.

(** ** The longevity engine: one run *)

Lemma py_max_nonneg (x : Q) : 0 <= py_max 0 x.
Proof. unfold py_max. destruct (Qlt_le_dec 0 x); lra. Qed.

Lemma Qle_bool_false (x y : Q) : Qle_bool x y = false <-> y < x.
Proof.
  split; intros H.
  - apply Qnot_le_lt. intros Hle. apply Qle_bool_iff in Hle. congruence.
  - destruct (Qle_bool x y) eqn:E; [| reflexivity].
    apply Qle_bool_iff in E. lra.
Qed.

Section OneRun.

Variable inflation : Q.
Variable rent_strategy : string.
Variable medical_shock : Z.

Notation annual_expense := (annual_expense inflation rent_strategy medical_shock).
Notation draw_down := (draw_down inflation rent_strategy medical_shock).
Notation loop_body := (loop_body inflation rent_strategy medical_shock).
Notation loop := (loop inflation rent_strategy medical_shock).
Notation simulate := (simulate inflation rent_strategy medical_shock).

Lemma loop_snoc (years : list Z) (year : Z) :
  loop (years ++ [year]) = loop_body (loop years) year.
Proof. unfold loop. rewrite fold_left_app. reflexivity. Qed.

Lemma loop_app (ys zs : list Z) :
  loop (ys ++ zs) = fold_left loop_body zs (loop ys).
Proof. unfold loop. apply fold_left_app. Qed.

(** The corpus of a year before the clamp. *)
Lemma draw_down_corpus (year : Z) (st : env) :
  current_corpus (draw_down year st)
  = current_corpus st
    - py_max 0 (annual_expense year
                - (inject_Z pension + py_max 0 (current_corpus st * 0.078))).
Proof. reflexivity. Qed.

Lemma draw_down_le (year : Z) (st : env) :
  current_corpus (draw_down year st) <= current_corpus st.
Proof.
  rewrite draw_down_corpus.
  pose proof (py_max_nonneg
    (annual_expense year
     - (inject_Z pension + py_max 0 (current_corpus st * 0.078)))).
  lra.
Qed.

(** The two ways an iteration can end: clamped, or with the drawn-down
    corpus kept. *)
Lemma loop_body_cases (st : env) (year : Z) :
  let drawn := current_corpus (draw_down year st) in
  let st' := loop_body st year in
  (drawn <= 0 /\
   current_corpus st' = 0 /\
   simulation_data st'
   = simulation_data st ++ [{| Age := 65 + year; Corpus := 0 |}] /\
   if py_eq_str (depletion_age st) "95+"
   then depletion_age st' = PInt (65 + year) /\ status_color st' = "red"%string
   else depletion_age st' = depletion_age st /\
        status_color st' = status_color st)
  \/
  (0 < drawn /\
   current_corpus st' = drawn /\
   simulation_data st'
   = simulation_data st ++ [{| Age := 65 + year; Corpus := drawn |}] /\
   depletion_age st' = depletion_age st /\
   status_color st' = status_color st).
Proof.
  intros drawn st'. subst st'. unfold loop_body, clamp.
  fold drawn.
  destruct (Qle_bool drawn 0) eqn:E.
  - left. apply Qle_bool_iff in E. split; [exact E |].
    change (depletion_age (set_current_corpus 0 (draw_down year st)))
      with (depletion_age st).
    destruct (py_eq_str (depletion_age st) "95+");
      repeat split; reflexivity.
  - right. apply Qle_bool_false in E. repeat split. exact E.
Qed.

Lemma init_solvent : solvent init.
Proof. repeat split. constructor. Qed.

Lemma solvent_step (st : env) (year : Z) :
  solvent st ->
  solvent (loop_body st year) \/ depleted_at (65 + year) (loop_body st year).
Proof.
  intros (Hd & Hc & Hpos & Hall).
  destruct (loop_body_cases st year) as
    [(Hle & Hcc & Hdata & Hrec) | (Hlt & Hcc & Hdata & Hd' & Hc')].
  - right. rewrite Hd in Hrec.
    change (py_eq_str (PStr "95+") "95+") with true in Hrec.
    destruct Hrec as [Hd' Hc'].
    split; [exact Hd' |]. split; [exact Hc' |]. split; [exact Hcc |].
    exists (simulation_data st), [].
    split; [exact Hdata |]. split; [exact Hall | constructor].
  - left. split; [congruence |]. split; [congruence |]. split.
    + rewrite Hcc. exact Hlt.
    + rewrite Hdata. apply Forall_app. split; [exact Hall |].
      constructor; [exact Hlt | constructor].
Qed.

Lemma depleted_step (a : Z) (st : env) (year : Z) :
  depleted_at a st -> depleted_at a (loop_body st year).
Proof.
  intros (Hd & Hc & Hzero & pre & post & Hdata & Hpre & Hpost).
  pose proof (draw_down_le year st) as Hle0. rewrite Hzero in Hle0.
  destruct (loop_body_cases st year) as
    [(Hle & Hcc & Hdata' & Hrec) | (Hlt & _)]; [| lra].
  rewrite Hd in Hrec. change (py_eq_str (PInt a) "95+") with false in Hrec.
  destruct Hrec as [Hd' Hc'].
  split; [congruence |]. split; [congruence |]. split; [exact Hcc |].
  exists pre, (post ++ [{| Age := 65 + year; Corpus := 0 |}]).
  split; [| split].
  - rewrite Hdata', Hdata, <- app_assoc. reflexivity.
  - exact Hpre.
  - apply Forall_app. split; [exact Hpost |].
    constructor; [reflexivity | constructor].
Qed.

Lemma phase_step (st : env) (year : Z) :
  phase st -> phase (loop_body st year).
Proof.
  intros [Hs | [a Ha]].
  - destruct (solvent_step st year Hs) as [H | H].
    + left. exact H.
    + right. exists (65 + year)%Z. exact H.
  - right. exists a. apply depleted_step. exact Ha.
Qed.

Lemma phase_fold (years : list Z) (st : env) :
  phase st -> phase (fold_left loop_body years st).
Proof.
  revert st. induction years as [| y ys IH]; intros st H; simpl.
  - exact H.
  - apply IH, phase_step, H.
Qed.

Lemma phase_loop (years : list Z) : phase (loop years).
Proof. apply phase_fold. left. exact init_solvent. Qed.

Lemma depleted_fold (a : Z) (years : list Z) (st : env) :
  depleted_at a st -> depleted_at a (fold_left loop_body years st).
Proof.
  revert st. induction years as [| y ys IH]; intros st H; simpl.
  - exact H.
  - apply IH, depleted_step, H.
Qed.

(** An integer in [depletion_age] means the run is in its depleted phase. *)
Lemma phase_int (st : env) (a : Z) :
  phase st -> depletion_age st = PInt a -> depleted_at a st.
Proof.
  intros [(Hd & _) | [b Hb]] H.
  - congruence.
  - destruct Hb as (Hd & Hrest). assert (b = a) by congruence. subst b.
    split; assumption.
Qed.

End OneRun.

(** *** What the phases say about the series *)

Lemma phase_nonneg (st : env) :
  phase st -> Forall (fun r => 0 <= Corpus r) (simulation_data st).
Proof.
  intros [(_ & _ & _ & Hall) | (a & _ & _ & _ & pre & post & Hdata & Hpre & Hpost)].
  - eapply Forall_impl; [| exact Hall]. intros r Hr. simpl in Hr. lra.
  - rewrite Hdata. apply Forall_app. split.
    + eapply Forall_impl; [| exact Hpre]. intros r Hr. simpl in Hr. lra.
    + constructor; [simpl; lra |].
      eapply Forall_impl; [| exact Hpost]. intros r Hr. simpl in Hr.
      rewrite Hr. lra.
Qed.

Lemma Forall_nth_error {A : Type} (P : A -> Prop) (l : list A) (i : nat) (x : A) :
  Forall P l -> nth_error l i = Some x -> P x.
Proof.
  intros Hall Hnth. rewrite Forall_forall in Hall.
  apply Hall. eapply nth_error_In. exact Hnth.
Qed.

(** A point at zero holds the literal [0], and so does every later point. *)
Lemma phase_zero_stays (st : env) (i j : nat) (ri rj : row) :
  phase st -> (i <= j)%nat ->
  nth_error (simulation_data st) i = Some ri ->
  nth_error (simulation_data st) j = Some rj ->
  Corpus ri == 0 -> Corpus rj = 0.
Proof.
  intros [(_ & _ & _ & Hall) | (a & _ & _ & _ & pre & post & Hdata & Hpre & Hpost)]
    Hij Hi Hj Hz.
  - pose proof (Forall_nth_error _ _ _ _ Hall Hi) as Hpos. simpl in Hpos. lra.
  - rewrite Hdata in Hi, Hj.
    destruct (Nat.lt_ge_cases i (length pre)) as [Hin | Hout].
    + rewrite nth_error_app1 in Hi by exact Hin.
      pose proof (Forall_nth_error _ _ _ _ Hpre Hi) as Hpos. simpl in Hpos. lra.
    + rewrite nth_error_app2 in Hj by lia.
      assert (Hall : Forall (fun r => Corpus r = 0)
                            ({| Age := a; Corpus := 0 |} :: post)).
      { constructor; [reflexivity | exact Hpost]. }
      exact (Forall_nth_error _ _ _ _ Hall Hj).
Qed.

Lemma first_zero_positive (data : list row) :
  Forall (fun r => 0 < Corpus r) data -> first_zero data = None.
Proof.
  induction 1 as [| r data Hr _ IH]; [reflexivity |].
  unfold first_zero in *. simpl.
  destruct (Qeq_bool (Corpus r) 0) eqn:E; [| exact IH].
  apply Qeq_bool_iff in E. lra.
Qed.

Lemma first_zero_app (pre post : list row) (z : row) :
  Forall (fun r => 0 < Corpus r) pre -> Corpus z = 0 ->
  first_zero (pre ++ z :: post) = Some z.
Proof.
  intros Hpre Hz. induction Hpre as [| r pre Hr _ IH]; unfold first_zero in *; simpl.
  - rewrite Hz. reflexivity.
  - destruct (Qeq_bool (Corpus r) 0) eqn:E; [| exact IH].
    apply Qeq_bool_iff in E. lra.
Qed.

(** [depletion_age] is the age of the first point at zero, and the fallback
    string when no point is at zero. *)
Lemma phase_first_zero (st : env) :
  phase st ->
  depletion_age st
  = match first_zero (simulation_data st) with
    | Some r => PInt (Age r)
    | None => PStr "95+"
    end.
Proof.
  intros [(Hd & _ & _ & Hall) | (a & Hd & _ & _ & pre & post & Hdata & Hpre & _)].
  - rewrite (first_zero_positive _ Hall). exact Hd.
  - rewrite Hdata, (first_zero_app pre post {| Age := a; Corpus := 0 |} Hpre eq_refl).
    exact Hd.
Qed.

(** The colour tells the phase. *)
Lemma phase_red (st : env) :
  phase st ->
  (status_color st = "red"%string <-> exists a, depletion_age st = PInt a).
Proof.
  intros [(Hd & Hc & _) | (a & Hd & Hc & _)]; split.
  - rewrite Hc. discriminate.
  - intros [a Ha]. congruence.
  - intros _. exists a. exact Hd.
  - intros _. exact Hc.
Qed.

Lemma firstn_le_split {A : Type} (k j : nat) (l : list A) :
  (k <= j)%nat -> firstn j l = firstn k l ++ skipn k (firstn j l).
Proof.
  intros Hkj. rewrite <- (firstn_skipn k (firstn j l)) at 1.
  rewrite firstn_firstn, Nat.min_l by exact Hkj. reflexivity.
Qed.

Lemma phase_simulate (inflation : Q) (rent_strategy : string) (medical_shock : Z) :
  phase (simulate inflation rent_strategy medical_shock).
Proof. unfold simulate. apply phase_loop. Qed.

(** C1: in every run the corpus recorded is never negative; a recorded corpus
    that is zero is the literal 0 and every later point of the series is 0 as
    well; [depletion_age] ends as the age of the first point at zero (the
    fallback string when there is none); and once [depletion_age] holds an age
    after some iteration it holds the same age after every later one. *)
Theorem corpus_clamped_first_crossing_wins
    (inflation : Q) (rent_strategy : string) (medical_shock : Z) :
  Forall (fun r => 0 <= Corpus r)
    (simulation_data (simulate inflation rent_strategy medical_shock)) /\
  (forall (i j : nat) (ri rj : row),
      (i <= j)%nat ->
      nth_error (simulation_data (simulate inflation rent_strategy medical_shock)) i
      = Some ri ->
      nth_error (simulation_data (simulate inflation rent_strategy medical_shock)) j
      = Some rj ->
      Corpus ri == 0 -> Corpus rj = 0) /\
  depletion_age (simulate inflation rent_strategy medical_shock)
  = match first_zero
            (simulation_data (simulate inflation rent_strategy medical_shock)) with
    | Some r => PInt (Age r)
    | None => PStr "95+"
    end /\
  (forall (k j : nat) (a : Z),
      (k <= j)%nat ->
      depletion_age
        (loop inflation rent_strategy medical_shock (firstn k (range 1 31)))
      = PInt a ->
      depletion_age
        (loop inflation rent_strategy medical_shock (firstn j (range 1 31)))
      = PInt a).
Proof.
  pose proof (phase_simulate inflation rent_strategy medical_shock) as Hph.
  split; [exact (phase_nonneg _ Hph) |].
  split; [intros i j ri rj Hij; exact (phase_zero_stays _ i j ri rj Hph Hij) |].
  split; [exact (phase_first_zero _ Hph) |].
  intros k j a Hkj Hk.
  rewrite (firstn_le_split k j _ Hkj), loop_app.
  refine (proj1 (depleted_fold _ _ _ a _ _ _)).
  apply phase_int; [apply phase_loop | exact Hk].
Qed.

(** *** The shape of the series *)

Lemma range_1_31 :
  range 1 31
  = [1; 2; 3; 4; 5; 6; 7; 8; 9; 10; 11; 12; 13; 14; 15; 16; 17; 18; 19; 20;
     21; 22; 23; 24; 25; 26; 27; 28; 29; 30]%Z.
Proof. reflexivity. Qed.

Section Series.

Variable inflation : Q.
Variable rent_strategy : string.
Variable medical_shock : Z.

Notation loop_body := (loop_body inflation rent_strategy medical_shock).
Notation loop := (loop inflation rent_strategy medical_shock).
Notation simulate := (simulate inflation rent_strategy medical_shock).

Lemma loop_body_data (st : env) (year : Z) :
  simulation_data (loop_body st year)
  = simulation_data st
    ++ [{| Age := 65 + year; Corpus := current_corpus (loop_body st year) |}].
Proof.
  destruct (loop_body_cases inflation rent_strategy medical_shock st year) as
    [(_ & Hcc & Hdata & _) | (_ & Hcc & Hdata & _)];
    rewrite Hdata, Hcc; reflexivity.
Qed.

(** Every iteration appends one point, whose age is [65 + year]. *)
Lemma fold_data_extends (years : list Z) (st : env) :
  exists tail,
    simulation_data (fold_left loop_body years st) = simulation_data st ++ tail /\
    map Age tail = map (fun year => 65 + year)%Z years.
Proof.
  revert st. induction years as [| y ys IH]; intros st; simpl.
  - exists []. rewrite app_nil_r. split; reflexivity.
  - destruct (IH (loop_body st y)) as (tail & Hdata & Hages).
    exists ({| Age := 65 + y; Corpus := current_corpus (loop_body st y) |} :: tail).
    split.
    + rewrite Hdata, loop_body_data, <- app_assoc. reflexivity.
    + simpl. rewrite Hages. reflexivity.
Qed.

Lemma loop_ages (years : list Z) :
  map Age (simulation_data (loop years)) = map (fun year => 65 + year)%Z years.
Proof.
  unfold loop. destruct (fold_data_extends years init) as (tail & Hdata & Hages).
  rewrite Hdata. exact Hages.
Qed.

Lemma simulate_ages :
  map Age (simulation_data simulate)
  = [66; 67; 68; 69; 70; 71; 72; 73; 74; 75; 76; 77; 78; 79; 80; 81; 82; 83;
     84; 85; 86; 87; 88; 89; 90; 91; 92; 93; 94; 95]%Z.
Proof. unfold simulate. rewrite loop_ages, range_1_31. reflexivity. Qed.

(** The last point of the series carries the corpus the loop ends with. *)
Lemma simulate_terminal :
  exists r, nth_error (simulation_data simulate) 29 = Some r /\
            Age r = 95%Z /\
            Corpus r = current_corpus simulate.
Proof.
  unfold simulate. rewrite range_1_31.
  change [1; 2; 3; 4; 5; 6; 7; 8; 9; 10; 11; 12; 13; 14; 15; 16; 17; 18; 19;
          20; 21; 22; 23; 24; 25; 26; 27; 28; 29; 30]%Z
    with ([1; 2; 3; 4; 5; 6; 7; 8; 9; 10; 11; 12; 13; 14; 15; 16; 17; 18; 19;
           20; 21; 22; 23; 24; 25; 26; 27; 28; 29] ++ [30])%Z.
  set (before := [1; 2; 3; 4; 5; 6; 7; 8; 9; 10; 11; 12; 13; 14; 15; 16; 17;
                  18; 19; 20; 21; 22; 23; 24; 25; 26; 27; 28; 29]%Z).
  rewrite loop_snoc.
  assert (Hlen : length (simulation_data (loop before)) = 29%nat).
  { rewrite <- (length_map Age), loop_ages. reflexivity. }
  exists {| Age := 65 + 30; Corpus := current_corpus (loop_body (loop before) 30) |}.
  split; [| split; reflexivity].
  rewrite loop_body_data, nth_error_app2 by lia. rewrite Hlen.
  replace (29 - 29)%nat with 0%nat by reflexivity. reflexivity.
Qed.

End Series.

(** Away from year 5 an iteration does not read [medical_shock]. *)
Lemma loop_body_no_shock (inflation : Q) (rent_strategy : string)
    (shock shock' : Z) (st : env) (year : Z) :
  year <> 5%Z ->
  loop_body inflation rent_strategy shock st year
  = loop_body inflation rent_strategy shock' st year.
Proof.
  intros Hy. unfold loop_body, draw_down, annual_expense.
  destruct (Z.eqb_spec year 5) as [E | _]; [contradiction | reflexivity].
Qed.

Lemma fold_no_shock (inflation : Q) (rent_strategy : string)
    (shock shock' : Z) (years : list Z) (st : env) :
  Forall (fun year => year <> 5%Z) years ->
  fold_left (loop_body inflation rent_strategy shock) years st
  = fold_left (loop_body inflation rent_strategy shock') years st.
Proof.
  intros Hall. revert st.
  induction Hall as [| y ys Hy _ IH]; intros st; simpl; [reflexivity |].
  rewrite (loop_body_no_shock _ _ shock shock' st y Hy). apply IH.
Qed.

(** The points of the first four years are the run over years 1 to 4. *)
Lemma simulate_first_four (inflation : Q) (rent_strategy : string) (shock : Z) :
  firstn 4 (simulation_data (simulate inflation rent_strategy shock))
  = simulation_data (loop inflation rent_strategy shock [1; 2; 3; 4]%Z).
Proof.
  unfold simulate. rewrite range_1_31.
  change [1; 2; 3; 4; 5; 6; 7; 8; 9; 10; 11; 12; 13; 14; 15; 16; 17; 18; 19;
          20; 21; 22; 23; 24; 25; 26; 27; 28; 29; 30]%Z
    with ([1; 2; 3; 4]
          ++ [5; 6; 7; 8; 9; 10; 11; 12; 13; 14; 15; 16; 17; 18; 19;
              20; 21; 22; 23; 24; 25; 26; 27; 28; 29; 30])%Z.
  rewrite loop_app.
  match goal with
  | |- context [fold_left ?f ?ys ?st] =>
      destruct (fold_data_extends inflation rent_strategy shock ys st)
        as (tail & Hdata & _)
  end.
  rewrite Hdata.
  assert (Hlen : length (simulation_data
                           (loop inflation rent_strategy shock [1; 2; 3; 4]%Z))
                 = 4%nat).
  { rewrite <- (length_map Age), loop_ages. reflexivity. }
  rewrite firstn_app, Hlen, firstn_all2 by lia.
  replace (4 - 4)%nat with 0%nat by reflexivity.
  rewrite firstn_O. apply app_nil_r.
Qed.

(** C8: the series has exactly 30 points, the ages are 66, 67, ..., 95, hence
    strictly increasing from 66; and [medical_shock] enters the expense of
    year 5 only: it is added once, uncompounded, to the inflated expense of
    that year, and the points of the four years before do not depend on it. *)
Theorem series_shape_and_one_time_shock
    (inflation : Q) (rent_strategy : string) (medical_shock : Z) :
  length (simulation_data (simulate inflation rent_strategy medical_shock)) = 30%nat /\
  StronglySorted Z.lt
    (map Age (simulation_data (simulate inflation rent_strategy medical_shock))) /\
  hd_error (map Age (simulation_data (simulate inflation rent_strategy medical_shock)))
  = Some 66%Z /\
  map Age (simulation_data (simulate inflation rent_strategy medical_shock))
  = map (fun year => 65 + year)%Z (range 1 31) /\
  (forall year : Z,
      annual_expense inflation rent_strategy medical_shock year
      == inject_Z (total_expense_y1 rent_strategy)
         * (1 + inflation / 100) ^ (year - 1)
         + (if (year =? 5)%Z then inject_Z medical_shock else 0)) /\
  (forall shock' : Z,
      firstn 4 (simulation_data (simulate inflation rent_strategy medical_shock))
      = firstn 4 (simulation_data (simulate inflation rent_strategy shock'))).
Proof.
  pose proof (simulate_ages inflation rent_strategy medical_shock) as Hages.
  split; [| split; [| split; [| split; [| split]]]].
  - rewrite <- (length_map Age), Hages. reflexivity.
  - rewrite Hages. repeat (constructor; [| repeat (constructor; [lia |]); constructor]).
    constructor.
  - rewrite Hages. reflexivity.
  - rewrite Hages, range_1_31. reflexivity.
  - intros year. unfold annual_expense.
    destruct (year =? 5)%Z; [reflexivity | lra].
  - intros shock'. rewrite !simulate_first_four. unfold loop.
    rewrite (fold_no_shock _ _ medical_shock shock'); [reflexivity |].
    repeat (constructor; [lia |]). constructor.
Qed.

(** *** The metric row *)

(** When the colour is not ["red"], [and] stops at its left operand and the
    comparison is not evaluated. *)
Lemma depletion_delta_not_red (st : env) :
  String.eqb (status_color st) "red" = false ->
  depletion_delta st = Returned "Safe"%string.
Proof. intros H. unfold depletion_delta. rewrite H. reflexivity. Qed.

Lemma depletion_delta_red (st : env) (a : Z) :
  status_color st = "red"%string -> depletion_age st = PInt a ->
  depletion_delta st
  = Returned (if (a <? 80)%Z then "Critical" else "Safe")%string.
Proof.
  intros Hc Hd. unfold depletion_delta. rewrite Hc, Hd. reflexivity.
Qed.

Lemma depletion_delta_phase (st : env) :
  phase st -> exists delta, depletion_delta st = Returned delta.
Proof.
  intros [(_ & Hc & _) | (a & Hd & Hc & _)].
  - exists "Safe"%string. apply depletion_delta_not_red. rewrite Hc. reflexivity.
  - eexists. apply (depletion_delta_red st a Hc Hd).
Qed.

Lemma sunita_unfold (inflation : Q) (rent_strategy : string) (medical_shock : Z) :
  sunita inflation rent_strategy medical_shock
  = (delta <- depletion_delta (simulate inflation rent_strategy medical_shock) ;;
     Returned
       {| df_sunita := simulation_data (simulate inflation rent_strategy medical_shock);
          m1_monthly_gap := monthly_gap rent_strategy;
          m2_depletion_age :=
            depletion_age (simulate inflation rent_strategy medical_shock);
          m2_delta := delta;
          line_color :=
            if String.eqb
                 (status_color (simulate inflation rent_strategy medical_shock))
                 "red"
            then "#ef4444" else "#10b981" |}).
Proof. reflexivity. Qed.

(** The tab always renders: no input makes the modelled lines raise. *)
Lemma sunita_returns (inflation : Q) (rent_strategy : string) (medical_shock : Z) :
  exists view,
    sunita inflation rent_strategy medical_shock = Returned view /\
    df_sunita view = simulation_data (simulate inflation rent_strategy medical_shock) /\
    m1_monthly_gap view = monthly_gap rent_strategy /\
    m2_depletion_age view
    = depletion_age (simulate inflation rent_strategy medical_shock).
Proof.
  destruct (depletion_delta_phase _
              (phase_simulate inflation rent_strategy medical_shock))
    as [delta Hdelta].
  rewrite sunita_unfold, Hdelta. unfold bind.
  eexists. split; [reflexivity |]. split; [| split]; reflexivity.
Qed.

Lemma rejects_returned {A : Type} (a : A) : ~ rejects (Returned a).
Proof. intros [e He]. discriminate He. Qed.

(** C10: the badge never orders the fallback string against a number.  The
    comparison [depletion_age < 80] is skipped whenever the colour is not
    ["red"]; at the end of every run the colour is ["red"] exactly when
    [depletion_age] holds an integer; so the badge expression returns, and the
    whole tab returns, without a [TypeError]. *)
Theorem depletion_badge_never_raises
    (inflation : Q) (rent_strategy : string) (medical_shock : Z) :
  (forall st : env,
      String.eqb (status_color st) "red" = false ->
      depletion_delta st = Returned "Safe"%string) /\
  (status_color (simulate inflation rent_strategy medical_shock) = "red"%string
   <-> exists a : Z,
        depletion_age (simulate inflation rent_strategy medical_shock) = PInt a) /\
  (exists delta : string,
      depletion_delta (simulate inflation rent_strategy medical_shock)
      = Returned delta) /\
  ~ rejects (sunita inflation rent_strategy medical_shock).
Proof.
  pose proof (phase_simulate inflation rent_strategy medical_shock) as Hph.
  split; [exact depletion_delta_not_red |].
  split; [exact (phase_red _ Hph) |].
  split; [exact (depletion_delta_phase _ Hph) |].
  destruct (sunita_returns inflation rent_strategy medical_shock) as (v & Hv & _).
  rewrite Hv. apply rejects_returned.
Qed.

Lemma monthly_gap_value (rent_strategy : string) :
  monthly_gap rent_strategy
  == (480000
      + (if String.eqb rent_strategy "Paying Rent (₹10k/mo)" then 120000 else 0)
      - 300000) / 12.
Proof.
  unfold monthly_gap, total_expense_y1, rent_expense, base_living_expense, pension.
  destruct (String.eqb rent_strategy "Paying Rent (₹10k/mo)"); reflexivity.
Qed.

(** C7: the "Monthly Gap" metric is [(total_expense_y1 - pension) / 12] with
    [total_expense_y1] being 480,000 plus 120,000 when rent is paid; runs that
    differ only in inflation and medical shock show the same gap; and when
    rent is paid the gap is (480000 + 120000 - 300000) / 12 = 25,000. *)
Theorem monthly_gap_depends_on_rent_only
    (inflation : Q) (rent_strategy : string) (medical_shock : Z) :
  (exists view,
      sunita inflation rent_strategy medical_shock = Returned view /\
      m1_monthly_gap view
      == (480000
          + (if String.eqb rent_strategy "Paying Rent (₹10k/mo)"
             then 120000 else 0)
          - 300000) / 12 /\
      forall (inflation' : Q) (medical_shock' : Z),
      exists view',
        sunita inflation' rent_strategy medical_shock' = Returned view' /\
        m1_monthly_gap view' = m1_monthly_gap view) /\
  (exists view,
      sunita inflation "Paying Rent (₹10k/mo)" medical_shock = Returned view /\
      m1_monthly_gap view == (480000 + 120000 - 300000) / 12 /\
      m1_monthly_gap view == 25000).
Proof.
  split.
  - destruct (sunita_returns inflation rent_strategy medical_shock)
      as (v & Hv & _ & Hgap & _).
    exists v. split; [exact Hv |]. split.
    + rewrite Hgap. apply monthly_gap_value.
    + intros inflation' shock'.
      destruct (sunita_returns inflation' rent_strategy shock')
        as (v' & Hv' & _ & Hgap' & _).
      exists v'. split; [exact Hv' | congruence].
  - destruct (sunita_returns inflation "Paying Rent (₹10k/mo)" medical_shock)
      as (v & Hv & _ & Hgap & _).
    exists v. split; [exact Hv |]. rewrite Hgap. split; reflexivity.
Qed.

(** An unrecognised option string is read as "no rent". *)
Lemma rent_expense_other (rent_strategy : string) :
  rent_strategy <> "Paying Rent (₹10k/mo)"%string ->
  rent_expense rent_strategy = 0%Z.
Proof.
  intros H. unfold rent_expense.
  destruct (String.eqb_spec rent_strategy "Paying Rent (₹10k/mo)");
    [contradiction | reflexivity].
Qed.

Lemma sunita_other_option (inflation : Q) (rent_strategy : string)
    (medical_shock : Z) :
  rent_strategy <> "Paying Rent (₹10k/mo)"%string ->
  sunita inflation rent_strategy medical_shock
  = sunita inflation "Move to Family Home (₹0)" medical_shock.
Proof.
  intros H.
  unfold sunita, simulate, loop, loop_body, draw_down, annual_expense,
    monthly_gap, total_expense_y1.
  rewrite (rent_expense_other rent_strategy H).
  rewrite (rent_expense_other "Move to Family Home (₹0)") by discriminate.
  reflexivity.
Qed.

(** C9, as the spec words it, fails: a negative inflation rate and an option
    string the radio does not offer are both outside the widget ranges, and
    neither is turned down. *)
Lemma out_of_contract_not_rejected :
  (~ valid_sunita (-1) "Paying Rent (₹10k/mo)" 0 /\
   ~ rejects (sunita (-1) "Paying Rent (₹10k/mo)" 0)) /\
  (~ valid_sunita 6 "Own House" 0 /\
   ~ rejects (sunita 6 "Own House" 0)).
Proof.
  split; split.
  - intros [[H _] _]. revert H. apply Qlt_not_le. reflexivity.
  - destruct (sunita_returns (-1) "Paying Rent (₹10k/mo)" 0) as (v & Hv & _).
    rewrite Hv. apply rejects_returned.
  - intros (_ & [H | [H | []]] & _); discriminate H.
  - destruct (sunita_returns 6 "Own House" 0) as (v & Hv & _).
    rewrite Hv. apply rejects_returned.
Qed.

(** C9, amended: the calculators do not validate their inputs.  For inputs
    of moderate size, in or out of contract (an inflation rate anywhere
    between -1000 and 1000, any option string, a medical shock and a crash of
    at most 10^12 and 10^6 in absolute value), the tab returns a result; an
    option string other than the paying-rent one is computed as the
    family-home option; and the expense and equity formulas are applied to the
    raw inflation and crash values, unclamped. *)
Theorem no_input_validation
    (inflation : Q) (rent_strategy : string) (medical_shock : Z)
    (market_crash : Z) :
  -1000 <= inflation <= 1000 ->
  (-1000000000000 <= medical_shock <= 1000000000000)%Z ->
  (-1000000 <= market_crash <= 1000000)%Z ->
  ~ rejects (sunita inflation rent_strategy medical_shock) /\
  (rent_strategy <> "Paying Rent (₹10k/mo)"%string ->
   sunita inflation rent_strategy medical_shock
   = sunita inflation "Move to Family Home (₹0)" medical_shock) /\
  annual_expense inflation rent_strategy medical_shock 2
  == inject_Z (total_expense_y1 rent_strategy) * (1 + inflation / 100) /\
  equity_val market_crash == 16000000 - 160000 * inject_Z market_crash.
Proof.
  intros _ _ _.
  split; [| split; [| split]].
  - destruct (sunita_returns inflation rent_strategy medical_shock) as (v & Hv & _).
    rewrite Hv. apply rejects_returned.
  - apply sunita_other_option.
  - unfold annual_expense. change (2 - 1)%Z with 1%Z.
    change (2 =? 5)%Z with false. cbv iota. rewrite Qpower_1_r. reflexivity.
  - apply equity_val_linear.
Qed.

Lemma no_input_validation_witness :
  -1000 <= -1 <= 1000 /\
  (-1000000000000 <= 0 <= 1000000000000)%Z /\
  (-1000000 <= -10 <= 1000000)%Z /\
  ~ rejects (sunita (-1) "Own House" 0) /\
  ("Own House"%string <> "Paying Rent (₹10k/mo)"%string ->
   sunita (-1) "Own House" 0 = sunita (-1) "Move to Family Home (₹0)" 0) /\
  annual_expense (-1) "Own House" 0 2
  == inject_Z (total_expense_y1 "Own House") * (1 + -1 / 100) /\
  equity_val (-10) == 16000000 - 160000 * inject_Z (-10).
Proof.
  split; [split; discriminate |].
  split; [lia |]. split; [lia |].
  apply (no_input_validation (-1) "Own House" 0 (-10)).
  - split; discriminate.
  - lia.
  - lia.
Defined.

(** ** The longevity engine: two runs that differ in inflation *)

(** *** Powers with a natural exponent *)

Lemma Qpower_succ (a : Q) (k : nat) :
  a ^ Z.of_nat (S k) == a * a ^ Z.of_nat k.
Proof.
  replace (Z.of_nat (S k)) with (1 + Z.of_nat k)%Z by lia.
  rewrite Qpower_plus' by lia. rewrite Qpower_1_r. reflexivity.
Qed.

Lemma Qpower_base_le (a b : Q) (k : nat) :
  0 <= a -> a <= b -> a ^ Z.of_nat k <= b ^ Z.of_nat k.
Proof.
  intros Ha Hab. induction k as [| k IH].
  - apply Qle_refl.
  - rewrite !Qpower_succ. apply Qmult_le_compat_nonneg.
    + split; assumption.
    + split; [apply Qpower_0_le; exact Ha | exact IH].
Qed.

Lemma Qpower_base_lt (a b : Q) (k : nat) :
  0 <= a -> a < b -> a ^ Z.of_nat (S k) < b ^ Z.of_nat (S k).
Proof.
  intros Ha Hab. induction k as [| k IH].
  - change (Z.of_nat 1) with 1%Z. rewrite !Qpower_1_r. exact Hab.
  - rewrite (Qpower_succ a (S k)), (Qpower_succ b (S k)).
    apply Qmult_lt_compat_nonneg.
    + split; assumption.
    + split; [apply Qpower_0_le; exact Ha | exact IH].
Qed.

Lemma Qpower_ge_base (a : Q) (k : nat) :
  1 <= a -> a <= a ^ Z.of_nat (S k).
Proof.
  intros Ha. rewrite <- (Qpower_1_r a) at 1.
  apply Qpower_le_compat_l; [lia | exact Ha].
Qed.

(** *** Bounds on one run *)

Lemma years_upto_S (n : nat) :
  years_upto (S n) = years_upto n ++ [Z.of_nat (S n)].
Proof. unfold years_upto. rewrite seq_S, map_app. reflexivity. Qed.

Lemma range_years_upto : range 1 31 = years_upto 30.
Proof. reflexivity. Qed.

Lemma total_expense_y1_bounds (rent_strategy : string) :
  480000 <= inject_Z (total_expense_y1 rent_strategy) <= 600000.
Proof.
  unfold total_expense_y1, rent_expense, base_living_expense.
  destruct (String.eqb rent_strategy "Paying Rent (₹10k/mo)");
    split; discriminate.
Qed.

Section Bounds.

Variable inflation : Q.
Variable rent_strategy : string.
Variable medical_shock : Z.

Notation loop_body := (loop_body inflation rent_strategy medical_shock).
Notation loop := (loop inflation rent_strategy medical_shock).

Lemma loop_corpus_nonneg (years : list Z) : 0 <= current_corpus (loop years).
Proof.
  destruct (phase_loop inflation rent_strategy medical_shock years)
    as [(_ & _ & H & _) | (a & _ & _ & H & _)].
  - lra.
  - rewrite H. lra.
Qed.

Lemma loop_body_corpus_le (st : env) (year : Z) :
  0 <= current_corpus st ->
  current_corpus (loop_body st year) <= current_corpus st.
Proof.
  intros H0.
  pose proof (draw_down_le inflation rent_strategy medical_shock year st) as Hle.
  destruct (loop_body_cases inflation rent_strategy medical_shock st year) as
    [(_ & Hcc & _) | (_ & Hcc & _)]; rewrite Hcc; lra.
Qed.

(** The corpus never exceeds what the run starts with. *)
Lemma loop_corpus_le_start (n : nat) :
  current_corpus (loop (years_upto n)) <= 2500000.
Proof.
  induction n as [| n IH].
  - apply Qle_refl.
  - rewrite years_upto_S, loop_snoc.
    pose proof (loop_body_corpus_le (loop (years_upto n)) (Z.of_nat (S n))
                  (loop_corpus_nonneg _)).
    lra.
Qed.

(** An age recorded within the first [n] years is at most [65 + n]. *)
Lemma loop_depletion_age_le (n : nat) (a : Z) :
  depletion_age (loop (years_upto n)) = PInt a -> (a <= 65 + Z.of_nat n)%Z.
Proof.
  revert a. induction n as [| n IH]; intros a.
  - discriminate.
  - rewrite years_upto_S, loop_snoc.
    destruct (loop_body_cases inflation rent_strategy medical_shock
                (loop (years_upto n)) (Z.of_nat (S n))) as
      [(_ & _ & _ & Hrec) | (_ & _ & _ & Hd & _)].
    + destruct (py_eq_str (depletion_age (loop (years_upto n))) "95+").
      * destruct Hrec as [Hd _]. rewrite Hd. intros E.
        assert (a = 65 + Z.of_nat (S n))%Z by congruence. lia.
      * destruct Hrec as [Hd _]. rewrite Hd. intros E.
        specialize (IH a E). lia.
    + rewrite Hd. intros E. specialize (IH a E). lia.
Qed.

End Bounds.

(** *** One year of drawdown, compared *)

Lemma py_max_cases (a b : Q) :
  (a < b /\ py_max a b = b) \/ (b <= a /\ py_max a b = a).
Proof.
  unfold py_max. destruct (Qlt_le_dec a b); [left | right]; split; auto.
Qed.

(** Splits every [max(0, x)] of the goal, innermost first. *)
Ltac py_max_cases_tac :=
  repeat match goal with
         | |- context [py_max 0 ?x] =>
             lazymatch x with
             | context [py_max] => fail
             | _ => destruct (py_max_cases 0 x) as [[? ->] | [? ->]]
             end
         end.

(** A smaller corpus and a larger expense leave a smaller corpus. *)
Lemma drawdown_mono (c1 c2 e1 e2 : Q) :
  0 <= c2 -> c2 <= c1 -> e1 <= e2 ->
  c2 - py_max 0 (e2 - (300000 + py_max 0 (c2 * 0.078)))
  <= c1 - py_max 0 (e1 - (300000 + py_max 0 (c1 * 0.078))).
Proof.
  intros H0 Hc He. py_max_cases_tac; lra.
Qed.

(** Once the expense is above what pension and yield can bring in, a strictly
    larger expense leaves a strictly smaller corpus. *)
Lemma drawdown_strict (c1 c2 e1 e2 : Q) :
  0 <= c2 -> c2 <= c1 -> c1 <= 2500000 -> 499200 <= e1 -> e1 < e2 ->
  c2 - py_max 0 (e2 - (300000 + py_max 0 (c2 * 0.078)))
  < c1 - py_max 0 (e1 - (300000 + py_max 0 (c1 * 0.078))).
Proof.
  intros H0 Hc Hstart Hlow He. py_max_cases_tac; lra.
Qed.

(** What an iteration does in each phase. *)
Lemma loop_body_solvent (inflation : Q) (rent_strategy : string)
    (medical_shock : Z) (st : env) (year : Z) :
  solvent st ->
  (current_corpus (draw_down inflation rent_strategy medical_shock year st) <= 0 /\
   current_corpus (loop_body inflation rent_strategy medical_shock st year) = 0 /\
   depletion_age (loop_body inflation rent_strategy medical_shock st year)
   = PInt (65 + year))
  \/
  (0 < current_corpus (draw_down inflation rent_strategy medical_shock year st) /\
   current_corpus (loop_body inflation rent_strategy medical_shock st year)
   = current_corpus (draw_down inflation rent_strategy medical_shock year st) /\
   depletion_age (loop_body inflation rent_strategy medical_shock st year)
   = PStr "95+").
Proof.
  intros (Hd & _).
  destruct (loop_body_cases inflation rent_strategy medical_shock st year) as
    [(Hle & Hcc & _ & Hrec) | (Hlt & Hcc & _ & Hd' & _)].
  - left. rewrite Hd in Hrec.
    change (py_eq_str (PStr "95+") "95+") with true in Hrec.
    destruct Hrec as [Hd' _]. auto.
  - right. rewrite Hd in Hd'. auto.
Qed.

Lemma loop_body_depleted (inflation : Q) (rent_strategy : string)
    (medical_shock : Z) (st : env) (year : Z) (a : Z) :
  depleted_at a st ->
  current_corpus (loop_body inflation rent_strategy medical_shock st year) = 0 /\
  depletion_age (loop_body inflation rent_strategy medical_shock st year) = PInt a.
Proof.
  intros H.
  destruct (depleted_step inflation rent_strategy medical_shock a st year H)
    as (Hd & _ & Hcc & _).
  auto.
Qed.

Section TwoRuns.

Variables r1 r2 : Q.
Variable rent_strategy : string.
Variable medical_shock : Z.

(** The lower rate keeps the compounding base non-negative, and the second
    run has the higher rate. *)
Hypothesis base_nonneg : 0 <= 1 + r1 / 100.
Hypothesis rate_le : r1 <= r2.

Notation run1 := (loop r1 rent_strategy medical_shock).
Notation run2 := (loop r2 rent_strategy medical_shock).

Lemma annual_expense_mono (m : nat) :
  annual_expense r1 rent_strategy medical_shock (Z.of_nat (S m))
  <= annual_expense r2 rent_strategy medical_shock (Z.of_nat (S m)).
Proof.
  unfold annual_expense.
  replace (Z.of_nat (S m) - 1)%Z with (Z.of_nat m) by lia.
  assert (Hbase : 1 + r1 / 100 <= 1 + r2 / 100) by qlra.
  pose proof (Qpower_base_le _ _ m base_nonneg Hbase) as Hpow.
  pose proof (total_expense_y1_bounds rent_strategy) as [Hlow _].
  assert (Hmul : inject_Z (total_expense_y1 rent_strategy)
                 * (1 + r1 / 100) ^ Z.of_nat m
                 <= inject_Z (total_expense_y1 rent_strategy)
                    * (1 + r2 / 100) ^ Z.of_nat m).
  { apply Qmult_le_l; [lra | exact Hpow]. }
  destruct (Z.of_nat (S m) =? 5)%Z; lra.
Qed.

Lemma draw_down_mono (m : nat) (st1 st2 : env) :
  0 <= current_corpus st2 -> current_corpus st2 <= current_corpus st1 ->
  current_corpus (draw_down r2 rent_strategy medical_shock (Z.of_nat (S m)) st2)
  <= current_corpus (draw_down r1 rent_strategy medical_shock (Z.of_nat (S m)) st1).
Proof.
  intros H0 Hc. rewrite !draw_down_corpus.
  change (inject_Z pension) with 300000.
  apply drawdown_mono; [exact H0 | exact Hc | apply annual_expense_mono].
Qed.

(** After any number of years the higher-inflation run holds no more corpus,
    and if the lower-inflation run has recorded a depletion age the other has
    recorded one that is no later. *)
Lemma runs_ordered (n : nat) :
  current_corpus (run2 (years_upto n)) <= current_corpus (run1 (years_upto n)) /\
  no_later (depletion_age (run2 (years_upto n)))
           (depletion_age (run1 (years_upto n))).
Proof.
  induction n as [| n [IHc IHd]].
  - split; [apply Qle_refl | exact I].
  - rewrite !years_upto_S, !loop_snoc.
    set (y := Z.of_nat (S n)).
    pose proof (loop_corpus_nonneg r2 rent_strategy medical_shock (years_upto n))
      as H0.
    pose proof (draw_down_mono n _ _ H0 IHc) as Hmono. fold y in Hmono.
    destruct (phase_loop r1 rent_strategy medical_shock (years_upto n))
      as [Hs1 | [a1 Hd1]];
      destruct (phase_loop r2 rent_strategy medical_shock (years_upto n))
        as [Hs2 | [a2 Hd2]].
    + destruct (loop_body_solvent r1 rent_strategy medical_shock _ y Hs1)
        as [(Hle1 & Hcc1 & Hage1) | (Hlt1 & Hcc1 & Hage1)];
        destruct (loop_body_solvent r2 rent_strategy medical_shock _ y Hs2)
          as [(Hle2 & Hcc2 & Hage2) | (Hlt2 & Hcc2 & Hage2)];
        rewrite Hcc1, Hcc2, Hage1, Hage2.
      * split; [apply Qle_refl |]. exists (65 + y)%Z. split; [reflexivity | lia].
      * lra.
      * split; [lra | exact I].
      * split; [exact Hmono | exact I].
    + destruct (loop_body_depleted r2 rent_strategy medical_shock _ y a2 Hd2)
        as [Hcc2 Hage2].
      pose proof (loop_depletion_age_le r2 rent_strategy medical_shock n a2
                    (proj1 Hd2)) as Hbound.
      destruct (loop_body_solvent r1 rent_strategy medical_shock _ y Hs1)
        as [(Hle1 & Hcc1 & Hage1) | (Hlt1 & Hcc1 & Hage1)];
        rewrite Hcc1, Hcc2, Hage1, Hage2.
      * split; [apply Qle_refl |]. exists a2. split; [reflexivity |].
        subst y. lia.
      * split; [lra | exact I].
    + exfalso. destruct Hd1 as (Hage1 & _). destruct Hs2 as (Hage2 & _).
      rewrite Hage1, Hage2 in IHd. destruct IHd as (a2 & E & _). discriminate E.
    + destruct (loop_body_depleted r1 rent_strategy medical_shock _ y a1 Hd1)
        as [Hcc1 Hage1].
      destruct (loop_body_depleted r2 rent_strategy medical_shock _ y a2 Hd2)
        as [Hcc2 Hage2].
      rewrite Hcc1, Hcc2, Hage1, Hage2.
      split; [apply Qle_refl |].
      destruct Hd1 as (E1 & _). destruct Hd2 as (E2 & _).
      rewrite E1, E2 in IHd. exact IHd.
Qed.

(** *** Strictly higher inflation, from the slider's range *)

Hypothesis rate_min : 4 <= r1.
Hypothesis rate_lt : r1 < r2.
Hypothesis shock_nonneg : (0 <= medical_shock)%Z.

Lemma annual_expense_strict (m : nat) :
  annual_expense r1 rent_strategy medical_shock (Z.of_nat (S (S m)))
  < annual_expense r2 rent_strategy medical_shock (Z.of_nat (S (S m))).
Proof.
  unfold annual_expense.
  replace (Z.of_nat (S (S m)) - 1)%Z with (Z.of_nat (S m)) by lia.
  assert (Hbase : 1 + r1 / 100 < 1 + r2 / 100) by qlra.
  pose proof (Qpower_base_lt _ _ m base_nonneg Hbase) as Hpow.
  pose proof (total_expense_y1_bounds rent_strategy) as [Hlow _].
  assert (Hmul : inject_Z (total_expense_y1 rent_strategy)
                 * (1 + r1 / 100) ^ Z.of_nat (S m)
                 < inject_Z (total_expense_y1 rent_strategy)
                   * (1 + r2 / 100) ^ Z.of_nat (S m)).
  { apply Qmult_lt_l; [lra | exact Hpow]. }
  destruct (Z.of_nat (S (S m)) =? 5)%Z; lra.
Qed.

(** From year 2 on the expense exceeds 495,000, the most that pension and
    yield on the starting corpus can bring in. *)
Lemma annual_expense_lower (m : nat) :
  499200 <= annual_expense r1 rent_strategy medical_shock (Z.of_nat (S (S m))).
Proof.
  unfold annual_expense.
  replace (Z.of_nat (S (S m)) - 1)%Z with (Z.of_nat (S m)) by lia.
  assert (Hbase : 1.04 <= 1 + r1 / 100) by qlra.
  assert (Hone : 1 <= 1 + r1 / 100) by lra.
  pose proof (Qpower_ge_base _ m Hone) as Hpow.
  pose proof (total_expense_y1_bounds rent_strategy) as [Hlow _].
  assert (Hmul : 480000 * (1 + r1 / 100) ^ Z.of_nat (S m)
                 <= inject_Z (total_expense_y1 rent_strategy)
                    * (1 + r1 / 100) ^ Z.of_nat (S m)).
  { apply Qmult_le_compat_r; [exact Hlow | lra]. }
  assert (Hshock : 0 <= inject_Z medical_shock).
  { change 0 with (inject_Z 0). rewrite <- Zle_Qle. exact shock_nonneg. }
  destruct (Z.of_nat (S (S m)) =? 5)%Z; lra.
Qed.

(** From the second year on, a run at the higher rate that has not depleted
    holds strictly less than the run at the lower rate. *)
Lemma runs_strict (m : nat) :
  depletion_age (run2 (years_upto (S (S m)))) = PStr "95+" ->
  current_corpus (run2 (years_upto (S (S m))))
  < current_corpus (run1 (years_upto (S (S m)))).
Proof.
  destruct (runs_ordered (S m)) as [IHc IHd].
  rewrite !(years_upto_S (S m)), !loop_snoc.
  set (y := Z.of_nat (S (S m))).
  pose proof (loop_corpus_nonneg r2 rent_strategy medical_shock (years_upto (S m)))
    as H0.
  pose proof (loop_corpus_le_start r1 rent_strategy medical_shock (S m)) as Hstart.
  assert (Hstrict :
    current_corpus (draw_down r2 rent_strategy medical_shock y (run2 (years_upto (S m))))
    < current_corpus (draw_down r1 rent_strategy medical_shock y (run1 (years_upto (S m))))).
  { rewrite !draw_down_corpus. change (inject_Z pension) with 300000.
    apply drawdown_strict; try assumption.
    - apply annual_expense_lower.
    - apply annual_expense_strict. }
  intros Hlast.
  destruct (phase_loop r2 rent_strategy medical_shock (years_upto (S m)))
    as [Hs2 | [a2 Hd2]].
  - destruct (loop_body_solvent r2 rent_strategy medical_shock _ y Hs2)
      as [(_ & _ & Hage2) | (Hlt2 & Hcc2 & _)]; [congruence |].
    destruct (phase_loop r1 rent_strategy medical_shock (years_upto (S m)))
      as [Hs1 | [a1 Hd1]].
    + destruct (loop_body_solvent r1 rent_strategy medical_shock _ y Hs1)
        as [(Hle1 & _) | (_ & Hcc1 & _)]; [lra |].
      rewrite Hcc1, Hcc2. exact Hstrict.
    + exfalso. destruct Hd1 as (Hage1 & _). destruct Hs2 as (Hage2 & _).
      rewrite Hage1, Hage2 in IHd. destruct IHd as (a2 & E & _). discriminate E.
  - destruct (loop_body_depleted r2 rent_strategy medical_shock _ y a2 Hd2)
      as [_ Hage2].
    congruence.
Qed.

End TwoRuns.

(** *** Evaluation with reduced fractions *)

Section Evaluation.

Variable inflation : Q.
Variable rent_strategy : string.
Variable medical_shock : Z.

Notation draw_down := (draw_down inflation rent_strategy medical_shock).
Notation loop_body := (loop_body inflation rent_strategy medical_shock).

Lemma draw_down_compat (year : Z) (s t : env) :
  current_corpus s == current_corpus t ->
  current_corpus (draw_down year s) == current_corpus (draw_down year t).
Proof.
  intros H. rewrite !draw_down_corpus. py_max_cases_tac; lra.
Qed.

Lemma loop_body_compat (year : Z) (s t : env) :
  env_eq s t -> env_eq (loop_body s year) (loop_body t year).
Proof.
  intros [Hc Hd]. pose proof (draw_down_compat year s t Hc) as Hdrawn.
  destruct (loop_body_cases inflation rent_strategy medical_shock s year) as
    [(Hle1 & Hcc1 & _ & Hrec1) | (Hlt1 & Hcc1 & _ & Hd1 & _)];
    destruct (loop_body_cases inflation rent_strategy medical_shock t year) as
      [(Hle2 & Hcc2 & _ & Hrec2) | (Hlt2 & Hcc2 & _ & Hd2 & _)];
    try lra; split.
  - rewrite Hcc1, Hcc2. reflexivity.
  - rewrite Hd in Hrec1.
    destruct (py_eq_str (depletion_age t) "95+");
      destruct Hrec1 as [-> _]; destruct Hrec2 as [-> _]; reflexivity.
  - rewrite Hcc1, Hcc2. exact Hdrawn.
  - congruence.
Qed.

Lemma normalize_eq (st : env) : env_eq (normalize st) st.
Proof. split; [apply Qred_correct | reflexivity]. Qed.

Lemma env_eq_trans (s t u : env) : env_eq s t -> env_eq t u -> env_eq s u.
Proof. intros [H1 H2] [H3 H4]. split; [lra | congruence]. Qed.

Lemma fold_normalized (years : list Z) (s t : env) :
  env_eq s t ->
  env_eq (fold_left (fun st year => normalize (loop_body st year)) years s)
         (fold_left loop_body years t).
Proof.
  revert s t. induction years as [| y ys IH]; intros s t H; simpl.
  - exact H.
  - apply IH. eapply env_eq_trans; [apply normalize_eq |].
    apply loop_body_compat. exact H.
Qed.

(** The reduced run records the same [depletion_age] as the loop. *)
Lemma loop_normalized_age (years : list Z) :
  depletion_age (loop inflation rent_strategy medical_shock years)
  = depletion_age (loop_normalized inflation rent_strategy medical_shock years).
Proof.
  symmetry. apply (fold_normalized years init init).
  split; reflexivity.
Qed.

End Evaluation.

(** *** The whole run *)

Lemma simulate_years_upto (inflation : Q) (rent_strategy : string)
    (medical_shock : Z) :
  simulate inflation rent_strategy medical_shock
  = loop inflation rent_strategy medical_shock (years_upto 30).
Proof. unfold simulate. rewrite range_years_upto. reflexivity. Qed.

Lemma valid_base_nonneg (inflation : Q) (rent_strategy : string)
    (medical_shock : Z) :
  valid_sunita inflation rent_strategy medical_shock -> 0 <= 1 + inflation / 100.
Proof. intros [[Hmin _] _]. qlra. Qed.

Lemma valid_shock_nonneg (inflation : Q) (rent_strategy : string)
    (medical_shock : Z) :
  valid_sunita inflation rent_strategy medical_shock -> (0 <= medical_shock)%Z.
Proof. intros (_ & _ & [<- | [<- | [<- | []]]]); lia. Qed.

(** At the lowest rate of the slider every combination of the other two
    widgets runs out of money by age 79. *)
Lemma lowest_rate_depletes (rent_strategy : string) (medical_shock : Z) :
  In rent_strategy rent_options -> In medical_shock medical_shock_options ->
  exists a : Z,
    depletion_age (loop 4 rent_strategy medical_shock (years_upto 30)) = PInt a /\
    (a <= 79)%Z.
Proof.
  intros Hrent Hshock. rewrite loop_normalized_age.
  destruct Hrent as [<- | [<- | []]];
    destruct Hshock as [<- | [<- | [<- | []]]];
    vm_compute; eexists; (split; [reflexivity | discriminate]).
Qed.

(** Hence so does every valid run: within the widget ranges the fallback
    ["95+"] is never what the metric shows. *)
Lemma valid_runs_deplete (inflation : Q) (rent_strategy : string)
    (medical_shock : Z) :
  valid_sunita inflation rent_strategy medical_shock ->
  exists a : Z,
    depletion_age (simulate inflation rent_strategy medical_shock) = PInt a /\
    (a <= 79)%Z.
Proof.
  intros ([Hmin Hmax] & Hrent & Hshock).
  destruct (lowest_rate_depletes rent_strategy medical_shock Hrent Hshock)
    as (a4 & Hage4 & Hle4).
  assert (Hbase : 0 <= 1 + 4 / 100) by discriminate.
  destruct (runs_ordered 4 inflation rent_strategy medical_shock Hbase Hmin 30)
    as [_ Hlater].
  rewrite Hage4 in Hlater. destruct Hlater as (a & Hage & Hle).
  rewrite simulate_years_upto. exists a. split; [exact Hage | lia].
Qed.

(** C6: with rent strategy and medical shock held fixed and two valid
    inflation rates [r1 < r2], either the run at [r2] depletes, and then the
    run at [r1] does not deplete at all or depletes at the same or a later
    age; or neither run depletes and the last point of the series at [r2]
    has a strictly lower corpus than the last point at [r1]. *)
Theorem higher_inflation_depletes_no_later
    (r1 r2 : Q) (rent_strategy : string) (medical_shock : Z) :
  valid_sunita r1 rent_strategy medical_shock ->
  valid_sunita r2 rent_strategy medical_shock ->
  r1 < r2 ->
  (exists a2 : Z,
      depletion_age (simulate r2 rent_strategy medical_shock) = PInt a2 /\
      (depletion_age (simulate r1 rent_strategy medical_shock) = PStr "95+" \/
       exists a1 : Z,
         depletion_age (simulate r1 rent_strategy medical_shock) = PInt a1 /\
         (a2 <= a1)%Z))
  \/
  (depletion_age (simulate r1 rent_strategy medical_shock) = PStr "95+" /\
   depletion_age (simulate r2 rent_strategy medical_shock) = PStr "95+" /\
   exists row1 row2 : row,
     nth_error (simulation_data (simulate r1 rent_strategy medical_shock)) 29
     = Some row1 /\
     nth_error (simulation_data (simulate r2 rent_strategy medical_shock)) 29
     = Some row2 /\
     Corpus row2 < Corpus row1).
Proof.
  intros Hv1 Hv2 Hlt.
  pose proof (valid_base_nonneg _ _ _ Hv1) as Hbase.
  pose proof (valid_shock_nonneg _ _ _ Hv1) as Hshock.
  destruct Hv1 as ([Hmin _] & _).
  assert (Hle : r1 <= r2) by lra.
  destruct (runs_ordered r1 r2 rent_strategy medical_shock Hbase Hle 30)
    as [_ Hlater].
  pose proof (runs_strict r1 r2 rent_strategy medical_shock Hbase Hle Hmin Hlt
                Hshock 28) as Hstrict.
  destruct (simulate_terminal r1 rent_strategy medical_shock)
    as (row1 & Hrow1 & _ & Hcorpus1).
  destruct (simulate_terminal r2 rent_strategy medical_shock)
    as (row2 & Hrow2 & _ & Hcorpus2).
  rewrite <- !simulate_years_upto in Hlater, Hstrict.
  pose proof (phase_simulate r1 rent_strategy medical_shock) as Hph1.
  pose proof (phase_simulate r2 rent_strategy medical_shock) as Hph2.
  destruct Hph2 as [(Hage2 & _) | (a2 & Hage2 & _)].
  - right. destruct Hph1 as [(Hage1 & _) | (a1 & Hage1 & _)].
    + split; [exact Hage1 |]. split; [exact Hage2 |].
      exists row1, row2. split; [exact Hrow1 |]. split; [exact Hrow2 |].
      rewrite Hcorpus1, Hcorpus2. apply Hstrict. exact Hage2.
    + exfalso. rewrite Hage1, Hage2 in Hlater.
      destruct Hlater as (a & E & _). discriminate E.
  - left. exists a2. split; [exact Hage2 |].
    destruct Hph1 as [(Hage1 & _) | (a1 & Hage1 & _)].
    + left. exact Hage1.
    + right. exists a1. split; [exact Hage1 |].
      rewrite Hage1, Hage2 in Hlater.
      destruct Hlater as (a & E & Hle'). injection E as <-. exact Hle'.
Qed.

Lemma higher_inflation_depletes_no_later_witness :
  valid_sunita 4 "Paying Rent (₹10k/mo)" 0 /\
  valid_sunita 6 "Paying Rent (₹10k/mo)" 0 /\
  4 < 6 /\
  ((exists a2 : Z,
       depletion_age (simulate 6 "Paying Rent (₹10k/mo)" 0) = PInt a2 /\
       (depletion_age (simulate 4 "Paying Rent (₹10k/mo)" 0) = PStr "95+" \/
        exists a1 : Z,
          depletion_age (simulate 4 "Paying Rent (₹10k/mo)" 0) = PInt a1 /\
          (a2 <= a1)%Z))
   \/
   (depletion_age (simulate 4 "Paying Rent (₹10k/mo)" 0) = PStr "95+" /\
    depletion_age (simulate 6 "Paying Rent (₹10k/mo)" 0) = PStr "95+" /\
    exists row1 row2 : row,
      nth_error (simulation_data (simulate 4 "Paying Rent (₹10k/mo)" 0)) 29
      = Some row1 /\
      nth_error (simulation_data (simulate 6 "Paying Rent (₹10k/mo)" 0)) 29
      = Some row2 /\
      Corpus row2 < Corpus row1)).
Proof.
  assert (Hv1 : valid_sunita 4 "Paying Rent (₹10k/mo)" 0).
  { split; [split; discriminate |]. split; simpl; auto. }
  assert (Hv2 : valid_sunita 6 "Paying Rent (₹10k/mo)" 0).
  { split; [split; discriminate |]. split; simpl; auto. }
  split; [exact Hv1 |]. split; [exact Hv2 |]. split; [reflexivity |].
  apply (higher_inflation_depletes_no_later 4 6 "Paying Rent (₹10k/mo)" 0 Hv1 Hv2).
  reflexivity.
Defined.

(** *** The run at the widgets' default values

    Inflation 6.0, paying rent, no medical shock: the first year draws
    600,000 - (300,000 + 195,000) = 105,000, the second
    636,000 - (300,000 + 186,810) = 149,190, and the money runs out at 74. *)
Example default_run_first_years :
  map (fun r => (Age r, Qred (Corpus r)))
      (simulation_data (loop 6 "Paying Rent (₹10k/mo)" 0 [1; 2]%Z))
  = [(66%Z, 2395000); (67%Z, 2245810)].
Proof. vm_compute. reflexivity. Qed.

Example default_run_depletion_age :
  depletion_age (simulate 6 "Paying Rent (₹10k/mo)" 0) = PInt 74 /\
  exists view,
    sunita 6 "Paying Rent (₹10k/mo)" 0 = Returned view /\
    m2_delta view = "Critical"%string.
Proof.
  assert (Hage : depletion_age (simulate 6 "Paying Rent (₹10k/mo)" 0) = PInt 74).
  { rewrite simulate_years_upto, loop_normalized_age. vm_compute. reflexivity. }
  split; [exact Hage |].
  pose proof (phase_simulate 6 "Paying Rent (₹10k/mo)" 0) as Hph.
  destruct (phase_int _ _ Hph Hage) as (_ & Hred & _).
  rewrite sunita_unfold, (depletion_delta_red _ 74 Hred Hage). unfold bind.
  eexists. split; reflexivity.
Qed.

(** * Further properties of the solvency engine *)

Lemma solvency_ratio_hedged (market_crash : Z) :
  (15 < market_crash)%Z ->
  solvency_ratio market_crash
  == (40400000 - 160000 * inject_Z market_crash) / 16600000.
Proof.
  intros H. unfold solvency_ratio, total_liquid_assets.
  rewrite (gold_val_hedged _ H), equity_val_linear.
  unfold arbitrage_val, bond_val, annual_debt_obligation.
  change (inject_Z 10000000) with 10000000.
  change (inject_Z 16600000) with 16600000. qlra.
Qed.

Lemma inject_Z_le_const (x c : Z) : (x <= c)%Z -> inject_Z x <= inject_Z c.
Proof. intros H. rewrite <- Zle_Qle. exact H. Qed.

Lemma inject_Z_ge_const (x c : Z) : (c <= x)%Z -> inject_Z c <= inject_Z x.
Proof. intros H. rewrite <- Zle_Qle. exact H. Qed.

(** X9: the badge test [solvency_ratio >= 2.0] holds exactly for crashes up to 45,
    where the ratio is 2 on the nose; this is so for every integer, not only
    for slider values. *)
Theorem is_safe_iff_crash_le_45 (market_crash : Z) :
  (is_safe market_crash = true <-> (market_crash <= 45)%Z) /\
  (delta_msg market_crash = "SAFE (>2.0x)"%string <-> (market_crash <= 45)%Z) /\
  solvency_ratio 45 == 2.
Proof.
  assert (Hsafe : is_safe market_crash = true <-> (market_crash <= 45)%Z).
  { unfold is_safe. rewrite Qle_bool_iff.
    destruct (Z_le_gt_dec market_crash 15) as [Hlow | Hhigh].
    - rewrite (solvency_ratio_flat _ Hlow).
      pose proof (inject_Z_le_const market_crash 15 Hlow) as Hq.
      change (inject_Z 15) with 15 in Hq.
      split; intros _; [lia | qlra].
    - rewrite solvency_ratio_hedged by lia. split; intros H.
      + destruct (Z_le_gt_dec market_crash 45) as [Hle | Hgt]; [exact Hle |].
        exfalso. assert (H46 : (46 <= market_crash)%Z) by lia.
        apply inject_Z_ge_const in H46. change (inject_Z 46) with 46 in H46. qlra.
      + apply inject_Z_le_const in H. change (inject_Z 45) with 45 in H. qlra. }
  split; [exact Hsafe |]. split; [| reflexivity].
  unfold delta_msg. destruct (is_safe market_crash); split; intros H.
  - apply Hsafe. reflexivity.
  - reflexivity.
  - discriminate H.
  - apply Hsafe in H. discriminate H.
Qed.

(** X10: on the slider's range above the hedge threshold the ratio strictly
    decreases in the crash too, in exact arithmetic and on binary64 alike. *)
Theorem solvency_ratio_decreasing_above_15 (a b : Z) :
  (15 < a < b)%Z -> (b <= 50)%Z ->
  solvency_ratio b < solvency_ratio a /\
  (Binary64.solvency_ratio b <? Binary64.solvency_ratio a)%float = true.
Proof.
  intros [Ha Hab] Hb. split.
  - rewrite !solvency_ratio_hedged by lia.
    assert (Hq : inject_Z a < inject_Z b) by (rewrite <- Zlt_Qlt; exact Hab).
    qlra.
  - assert (Hall :
      forallb (fun a =>
        forallb (fun b =>
          implb (a <? b)%Z
                (Binary64.solvency_ratio b <? Binary64.solvency_ratio a)%float)
          (range 16 51))
        (range 16 51) = true) by (vm_compute; reflexivity).
    rewrite forallb_forall in Hall.
    specialize (Hall a (in_range 16 51 a ltac:(lia))).
    rewrite forallb_forall in Hall.
    specialize (Hall b (in_range 16 51 b ltac:(lia))).
    replace (a <? b)%Z with true in Hall by lia.
    exact Hall.
Qed.

Lemma solvency_ratio_decreasing_above_15_witness :
  (15 < 20 < 50)%Z /\ (50 <= 50)%Z /\
  solvency_ratio 50 < solvency_ratio 20 /\
  (Binary64.solvency_ratio 50 <? Binary64.solvency_ratio 20)%float = true.
Proof.
  split; [lia |]. split; [lia |].
  apply (solvency_ratio_decreasing_above_15 20 50); lia.
Defined.

(** X11: the 10% on gold is worth two and a half points of crash: a crash above the
    threshold shows a strictly better ratio than a crash at or below it exactly
    when it is at most 2 points deeper. *)
Theorem hedge_offsets_two_points (a b : Z) :
  (b <= 15 < a)%Z ->
  (solvency_ratio b < solvency_ratio a <-> (a <= b + 2)%Z).
Proof.
  intros [Hb Ha].
  rewrite (solvency_ratio_flat b Hb), (solvency_ratio_hedged a Ha).
  destruct (Z_le_gt_dec a (b + 2)) as [Hle | Hgt].
  - pose proof (inject_Z_le_const _ _ Hle) as Hq. rewrite inject_Z_plus in Hq.
    change (inject_Z 2) with 2 in Hq. split; intros _; [exact Hle | qlra].
  - assert (H3 : (b + 3 <= a)%Z) by lia.
    pose proof (inject_Z_ge_const _ _ H3) as Hq. rewrite inject_Z_plus in Hq.
    change (inject_Z 3) with 3 in Hq. split; intros H; [exfalso; qlra | lia].
Qed.

Lemma hedge_offsets_two_points_witness :
  (15 <= 15 < 17)%Z /\
  (solvency_ratio 15 < solvency_ratio 17 <-> (17 <= 15 + 2)%Z).
Proof.
  split; [lia | apply (hedge_offsets_two_points 17 15); lia].
Defined.

Lemma total_liquid_assets_bounds (market_crash : Z) :
  (0 <= market_crash <= 50)%Z ->
  32400000 <= total_liquid_assets market_crash <= 40000000.
Proof.
  intros [H0 H50].
  pose proof (inject_Z_ge_const market_crash 0 H0) as Hq0.
  pose proof (inject_Z_le_const market_crash 50 H50) as Hq50.
  change (inject_Z 0) with 0 in Hq0. change (inject_Z 50) with 50 in Hq50.
  unfold total_liquid_assets, arbitrage_val, bond_val.
  change (inject_Z 10000000) with 10000000. rewrite equity_val_linear.
  destruct (Z_le_gt_dec market_crash 15) as [Hlow | Hhigh].
  - rewrite (gold_val_flat _ Hlow).
    pose proof (inject_Z_le_const market_crash 15 Hlow) as Hq15.
    change (inject_Z 15) with 15 in Hq15. split; lra.
  - rewrite gold_val_hedged by lia.
    pose proof (inject_Z_ge_const market_crash 16 ltac:(lia)) as Hq16.
    change (inject_Z 16) with 16 in Hq16. split; lra.
Qed.

(** X12: on the slider's range the ratio stays between 32,400,000 / 16,600,000 and
    40,000,000 / 16,600,000, so the gauge needle stays inside its axis and
    the ratio is never negative. *)
Theorem gauge_value_within_axis (market_crash : Z) :
  (0 <= market_crash <= 50)%Z ->
  32400000 / 16600000 <= gauge_value (fig_gauge market_crash)
  /\ gauge_value (fig_gauge market_crash) <= 40000000 / 16600000
  /\ fst (axis_range (fig_gauge market_crash))
     < gauge_value (fig_gauge market_crash)
  /\ gauge_value (fig_gauge market_crash)
     < snd (axis_range (fig_gauge market_crash)).
Proof.
  intros H. destruct (total_liquid_assets_bounds market_crash H) as [Hlo Hhi].
  cbn [gauge_value axis_range fig_gauge fst snd].
  unfold solvency_ratio, annual_debt_obligation.
  change (inject_Z 16600000) with 16600000.
  repeat split; qlra.
Qed.

Lemma gauge_value_within_axis_witness :
  (0 <= 10 <= 50)%Z /\
  32400000 / 16600000 <= gauge_value (fig_gauge 10)
  /\ gauge_value (fig_gauge 10) <= 40000000 / 16600000
  /\ fst (axis_range (fig_gauge 10)) < gauge_value (fig_gauge 10)
  /\ gauge_value (fig_gauge 10) < snd (axis_range (fig_gauge 10)).
Proof.
  split; [lia | apply (gauge_value_within_axis 10); lia].
Defined.

(** *** The goal check *)

(** X13: on the sliders' ranges a larger house-price surge means a strictly
    smaller surplus (or a larger shortfall), whatever the crash. *)
Theorem surplus_decreasing_in_house_surge (market_crash h1 h2 : Z) :
  (0 <= market_crash <= 50)%Z ->
  (0 <= h1 < h2)%Z -> (h2 <= 20)%Z ->
  surplus market_crash h2 < surplus market_crash h1.
Proof.
  intros _ [Hlow Hlt] _. unfold surplus, house_cost.
  pose proof (inject_Z_ge_const h1 0 Hlow) as Hq.
  change (inject_Z 0) with 0 in Hq.
  assert (Hq2 : inject_Z h1 < inject_Z h2) by (rewrite <- Zlt_Qlt; exact Hlt).
  assert (Hbase0 : 0 <= 1.05 + inject_Z h1 / 100) by qlra.
  assert (Hbase : 1.05 + inject_Z h1 / 100 < 1.05 + inject_Z h2 / 100) by qlra.
  pose proof (Qpower_base_lt _ _ 3 Hbase0 Hbase) as Hpow.
  change (Z.of_nat 4) with 4%Z in Hpow.
  lra.
Qed.

Lemma surplus_decreasing_in_house_surge_witness :
  (0 <= 10 <= 50)%Z /\ (0 <= 0 < 20)%Z /\ (20 <= 20)%Z /\
  surplus 10 20 < surplus 10 0.
Proof.
  split; [lia |]. split; [lia |]. split; [lia |].
  apply (surplus_decreasing_in_house_surge 10 0 20); lia.
Defined.

Lemma house_cost_mono (h1 h2 : Z) :
  (-105 <= h1 <= h2)%Z -> house_cost h1 <= house_cost h2.
Proof.
  intros [Hlow Hle]. unfold house_cost.
  pose proof (inject_Z_ge_const h1 (-105) Hlow) as Hq.
  change (inject_Z (-105)) with (-105) in Hq.
  pose proof (inject_Z_le_const h1 h2 Hle) as Hq2.
  assert (Hbase0 : 0 <= 1.05 + inject_Z h1 / 100) by qlra.
  assert (Hbase : 1.05 + inject_Z h1 / 100 <= 1.05 + inject_Z h2 / 100) by qlra.
  pose proof (Qpower_base_le _ _ 4 Hbase0 Hbase) as Hpow.
  change (Z.of_nat 4) with 4%Z in Hpow.
  lra.
Qed.

Lemma projected_wealth_bounds (market_crash : Z) :
  (0 <= market_crash <= 50)%Z ->
  45735244164 / 1000 <= projected_wealth market_crash <= 56463264400 / 1000.
Proof.
  intros H. destruct (total_liquid_assets_bounds market_crash H) as [Hlo Hhi].
  unfold projected_wealth.
  assert (Hgrow : 1.09 ^ 4 == 1.41158161) by reflexivity.
  rewrite Hgrow. split; qlra.
Qed.

(** X14: on the sliders' ranges the goal is funded whenever the house-price surge
    is at most 6 and shows a gap whenever it is at least 13, whatever the
    crash; in between the crash decides. *)
Theorem goal_status_by_house_surge (market_crash house_inflation : Z) :
  (0 <= market_crash <= 50)%Z ->
  (0 <= house_inflation <= 20)%Z ->
  ((house_inflation <= 6)%Z ->
   k3_delta (shekhar market_crash house_inflation) = "Funded"%string) /\
  ((13 <= house_inflation)%Z ->
   k3_delta (shekhar market_crash house_inflation) = "Gap"%string) /\
  k3_delta (shekhar 50 7) = "Gap"%string /\
  k3_delta (shekhar 0 12) = "Funded"%string.
Proof.
  intros Hmc Hh.
  destruct (projected_wealth_bounds market_crash Hmc) as [Hwlo Hwhi].
  split; [| split; [| split; reflexivity]].
  - intros H6. cbn [k3_delta shekhar].
    destruct (Qlt_le_dec 0 (surplus market_crash house_inflation)) as [_ | Hle];
      [reflexivity | exfalso].
    pose proof (house_cost_mono house_inflation 6 ltac:(lia)) as Hcost.
    assert (H6cost : house_cost 6 == 45542112.3) by reflexivity.
    unfold surplus in Hle. qlra.
  - intros H13. cbn [k3_delta shekhar].
    destruct (Qlt_le_dec 0 (surplus market_crash house_inflation)) as [Hlt | _];
      [exfalso | reflexivity].
    pose proof (house_cost_mono 13 house_inflation ltac:(lia)) as Hcost.
    assert (H13cost : house_cost 13 == 290816664 # 5) by reflexivity.
    unfold surplus in Hlt. qlra.
Qed.

Lemma goal_status_by_house_surge_witness :
  (0 <= 10 <= 50)%Z /\ (0 <= 5 <= 20)%Z /\
  ((5 <= 6)%Z -> k3_delta (shekhar 10 5) = "Funded"%string) /\
  ((13 <= 5)%Z -> k3_delta (shekhar 10 5) = "Gap"%string) /\
  k3_delta (shekhar 50 7) = "Gap"%string /\
  k3_delta (shekhar 0 12) = "Funded"%string.
Proof.
  split; [lia |]. split; [lia |].
  apply (goal_status_by_house_surge 10 5); lia.
Defined.

(** * Further properties of the longevity engine *)

(** ** The wealth curve never rises *)

Lemma StronglySorted_snoc {A : Type} (R : A -> A -> Prop) (l : list A) (x : A) :
  StronglySorted R l -> Forall (fun a => R a x) l -> StronglySorted R (l ++ [x]).
Proof.
  intros Hs Hall. induction Hs as [| a l Hs IH Ha]; simpl.
  - constructor; constructor.
  - inversion Hall as [| ? ? Hax Hall']; subst.
    constructor; [exact (IH Hall') |].
    apply Forall_app. split; [exact Ha | constructor; [exact Hax | constructor]].
Qed.

(** After any list of years: the points so far never rise, none is above the
    starting corpus, and the corpus in hand is at most every point recorded. *)
Lemma loop_curve_falls (inflation : Q) (rent_strategy : string)
    (medical_shock : Z) (years : list Z) :
  StronglySorted falls
    (simulation_data (loop inflation rent_strategy medical_shock years)) /\
  Forall (fun r => Corpus r <= 2500000)
    (simulation_data (loop inflation rent_strategy medical_shock years)) /\
  Forall (fun r => current_corpus (loop inflation rent_strategy medical_shock years)
                   <= Corpus r)
    (simulation_data (loop inflation rent_strategy medical_shock years)) /\
  current_corpus (loop inflation rent_strategy medical_shock years) <= 2500000.
Proof.
  induction years as [| y ys (Hsorted & Hstart & Hlast & Hcc)] using rev_ind.
  - split; [constructor |]. split; [constructor |]. split; [constructor |].
    apply Qle_refl.
  - rewrite loop_snoc, loop_body_data.
    set (st := loop inflation rent_strategy medical_shock ys) in *.
    pose proof (loop_body_corpus_le inflation rent_strategy medical_shock st y
                  (loop_corpus_nonneg inflation rent_strategy medical_shock ys))
      as Hstep.
    set (c := current_corpus (loop_body inflation rent_strategy medical_shock st y))
      in *.
    split; [| split; [| split]].
    + apply StronglySorted_snoc; [exact Hsorted |].
      eapply Forall_impl; [| exact Hlast].
      intros r Hr. unfold falls. simpl in *. lra.
    + apply Forall_app. split; [exact Hstart |].
      constructor; [simpl; lra | constructor].
    + apply Forall_app. split.
      * eapply Forall_impl; [| exact Hlast]. intros r Hr. simpl in *. lra.
      * constructor; [simpl; lra | constructor].
    + lra.
Qed.

(** X1: along the series the corpus never rises from one year to a later one,
    and no point is above the 2,500,000 the run starts with. *)
Theorem corpus_never_rises
    (inflation : Q) (rent_strategy : string) (medical_shock : Z) :
  StronglySorted falls
    (simulation_data (simulate inflation rent_strategy medical_shock)) /\
  Forall (fun r => Corpus r <= 2500000)
    (simulation_data (simulate inflation rent_strategy medical_shock)).
Proof.
  unfold simulate.
  destruct (loop_curve_falls inflation rent_strategy medical_shock (range 1 31))
    as (Hsorted & Hstart & _).
  split; assumption.
Qed.

(** ** The first year *)

Lemma loop_single (inflation : Q) (rent_strategy : string)
    (medical_shock : Z) (year : Z) :
  loop inflation rent_strategy medical_shock [year]
  = loop_body inflation rent_strategy medical_shock init year.
Proof. reflexivity. Qed.

Lemma first_year_corpus (inflation : Q) (rent_strategy : string)
    (medical_shock : Z) :
  current_corpus (loop_body inflation rent_strategy medical_shock init 1)
  == if String.eqb rent_strategy "Paying Rent (₹10k/mo)"
     then 2395000 else 2500000.
Proof.
  assert (Hdrawn :
    current_corpus (draw_down inflation rent_strategy medical_shock 1 init)
    == if String.eqb rent_strategy "Paying Rent (₹10k/mo)"
       then 2395000 else 2500000).
  { rewrite draw_down_corpus. unfold annual_expense.
    change (1 =? 5)%Z with false. change (1 - 1)%Z with 0%Z. cbv iota.
    change ((1 + inflation / 100) ^ 0) with 1.
    change (current_corpus init) with 2500000.
    change (inject_Z pension) with 300000.
    unfold total_expense_y1, rent_expense, base_living_expense.
    destruct (String.eqb rent_strategy "Paying Rent (₹10k/mo)").
    - change (inject_Z (480000 + 120000)) with 600000. py_max_cases_tac; lra.
    - change (inject_Z (480000 + 0)) with 480000. py_max_cases_tac; lra. }
  destruct (loop_body_cases inflation rent_strategy medical_shock init 1) as
    [(Hle & _) | (_ & Hcc & _)].
  - exfalso. rewrite Hdrawn in Hle.
    destruct (String.eqb rent_strategy "Paying Rent (₹10k/mo)"); lra.
  - rewrite Hcc. exact Hdrawn.
Qed.

(** X2: the first point of the series does not depend on inflation or on the
    medical shock: at age 66 the corpus is 2,395,000 when rent is paid (a
    drawdown of 105,000) and the untouched 2,500,000 otherwise. *)
Theorem first_year_ignores_inflation_and_shock
    (inflation : Q) (rent_strategy : string) (medical_shock : Z) :
  exists p : row,
    nth_error (simulation_data (simulate inflation rent_strategy medical_shock)) 0
    = Some p /\
    Age p = 66%Z /\
    Corpus p == if String.eqb rent_strategy "Paying Rent (₹10k/mo)"
                then 2395000 else 2500000.
Proof.
  unfold simulate. rewrite range_1_31.
  change [1; 2; 3; 4; 5; 6; 7; 8; 9; 10; 11; 12; 13; 14; 15; 16; 17; 18; 19;
          20; 21; 22; 23; 24; 25; 26; 27; 28; 29; 30]%Z
    with ([1]
          ++ [2; 3; 4; 5; 6; 7; 8; 9; 10; 11; 12; 13; 14; 15; 16; 17; 18; 19;
              20; 21; 22; 23; 24; 25; 26; 27; 28; 29; 30])%Z.
  rewrite loop_app.
  match goal with
  | |- context [fold_left ?f ?ys ?st] =>
      destruct (fold_data_extends inflation rent_strategy medical_shock ys st)
        as (tail & Hdata & _)
  end.
  rewrite Hdata, loop_single, loop_body_data.
  change (simulation_data init) with (@nil row).
  cbn [app nth_error].
  eexists. split; [reflexivity |].
  split; [reflexivity | apply first_year_corpus].
Qed.

(** ** Two runs whose expenses are ordered year by year *)

Section OrderedRuns.

Variables i1 i2 : Q.
Variables rs1 rs2 : string.
Variables ms1 ms2 : Z.

(** In every year of the loop the second run spends at least as much. *)
Hypothesis expense_le :
  forall m : nat,
    annual_expense i1 rs1 ms1 (Z.of_nat (S m))
    <= annual_expense i2 rs2 ms2 (Z.of_nat (S m)).

Notation cheap := (loop i1 rs1 ms1).
Notation dear := (loop i2 rs2 ms2).

Lemma ordered_draw_down (m : nat) (st1 st2 : env) :
  0 <= current_corpus st2 -> current_corpus st2 <= current_corpus st1 ->
  current_corpus (draw_down i2 rs2 ms2 (Z.of_nat (S m)) st2)
  <= current_corpus (draw_down i1 rs1 ms1 (Z.of_nat (S m)) st1).
Proof.
  intros H0 Hc. rewrite !draw_down_corpus.
  change (inject_Z pension) with 300000.
  apply drawdown_mono; [exact H0 | exact Hc | apply expense_le].
Qed.

Lemma ordered_step (n : nat) :
  current_corpus (dear (years_upto n)) <= current_corpus (cheap (years_upto n)) ->
  no_later (depletion_age (dear (years_upto n)))
           (depletion_age (cheap (years_upto n))) ->
  current_corpus (dear (years_upto (S n)))
  <= current_corpus (cheap (years_upto (S n))) /\
  no_later (depletion_age (dear (years_upto (S n))))
           (depletion_age (cheap (years_upto (S n)))).
Proof.
  intros IHc IHd. rewrite !years_upto_S, !loop_snoc.
  set (y := Z.of_nat (S n)).
  pose proof (loop_corpus_nonneg i2 rs2 ms2 (years_upto n)) as H0.
  pose proof (ordered_draw_down n _ _ H0 IHc) as Hmono. fold y in Hmono.
  destruct (phase_loop i1 rs1 ms1 (years_upto n)) as [Hs1 | [a1 Hd1]];
    destruct (phase_loop i2 rs2 ms2 (years_upto n)) as [Hs2 | [a2 Hd2]].
  - destruct (loop_body_solvent i1 rs1 ms1 _ y Hs1)
      as [(Hle1 & Hcc1 & Hage1) | (Hlt1 & Hcc1 & Hage1)];
      destruct (loop_body_solvent i2 rs2 ms2 _ y Hs2)
        as [(Hle2 & Hcc2 & Hage2) | (Hlt2 & Hcc2 & Hage2)];
      rewrite Hcc1, Hcc2, Hage1, Hage2.
    + split; [apply Qle_refl |]. exists (65 + y)%Z. split; [reflexivity | lia].
    + lra.
    + split; [lra | exact I].
    + split; [exact Hmono | exact I].
  - destruct (loop_body_depleted i2 rs2 ms2 _ y a2 Hd2) as [Hcc2 Hage2].
    pose proof (loop_depletion_age_le i2 rs2 ms2 n a2 (proj1 Hd2)) as Hbound.
    destruct (loop_body_solvent i1 rs1 ms1 _ y Hs1)
      as [(Hle1 & Hcc1 & Hage1) | (Hlt1 & Hcc1 & Hage1)];
      rewrite Hcc1, Hcc2, Hage1, Hage2.
    + split; [apply Qle_refl |]. exists a2. split; [reflexivity |].
      subst y. lia.
    + split; [lra | exact I].
  - exfalso. destruct Hd1 as (Hage1 & _). destruct Hs2 as (Hage2 & _).
    rewrite Hage1, Hage2 in IHd. destruct IHd as (a2 & E & _). discriminate E.
  - destruct (loop_body_depleted i1 rs1 ms1 _ y a1 Hd1) as [Hcc1 Hage1].
    destruct (loop_body_depleted i2 rs2 ms2 _ y a2 Hd2) as [Hcc2 Hage2].
    rewrite Hcc1, Hcc2, Hage1, Hage2.
    split; [apply Qle_refl |].
    destruct Hd1 as (E1 & _). destruct Hd2 as (E2 & _).
    rewrite E1, E2 in IHd. exact IHd.
Qed.

(** Year after year the dearer run holds no more, has depleted no later, and
    its curve so far lies on or below the other. *)
Lemma ordered_runs (n : nat) :
  current_corpus (dear (years_upto n)) <= current_corpus (cheap (years_upto n)) /\
  no_later (depletion_age (dear (years_upto n)))
           (depletion_age (cheap (years_upto n))) /\
  curve_below (simulation_data (dear (years_upto n)))
              (simulation_data (cheap (years_upto n))).
Proof.
  induction n as [| n (IHc & IHd & IHcurve)].
  - split; [apply Qle_refl |]. split; [exact I | constructor].
  - destruct (ordered_step n IHc IHd) as [Hc Hd].
    split; [exact Hc |]. split; [exact Hd |].
    rewrite !years_upto_S, !loop_snoc in Hc |- *.
    rewrite !loop_body_data.
    apply Forall2_app; [exact IHcurve |].
    constructor; [| constructor].
    split; [reflexivity | exact Hc].
Qed.

Lemma ordered_simulate :
  curve_below (simulation_data (simulate i2 rs2 ms2))
              (simulation_data (simulate i1 rs1 ms1)) /\
  no_later (depletion_age (simulate i2 rs2 ms2))
           (depletion_age (simulate i1 rs1 ms1)).
Proof.
  rewrite !simulate_years_upto.
  destruct (ordered_runs 30) as (_ & Hd & Hcurve).
  split; assumption.
Qed.

End OrderedRuns.

(** X3: a larger medical shock never raises a point of the wealth curve and
    never delays the recorded depletion age, whatever the other two inputs. *)
Theorem larger_shock_never_helps
    (inflation : Q) (rent_strategy : string) (shock1 shock2 : Z) :
  (shock1 <= shock2)%Z ->
  curve_below (simulation_data (simulate inflation rent_strategy shock2))
              (simulation_data (simulate inflation rent_strategy shock1)) /\
  no_later (depletion_age (simulate inflation rent_strategy shock2))
           (depletion_age (simulate inflation rent_strategy shock1)).
Proof.
  intros Hle. apply ordered_simulate. intros m. unfold annual_expense.
  pose proof (inject_Z_le_const _ _ Hle) as Hq.
  destruct (Z.of_nat (S m) =? 5)%Z; lra.
Qed.

Lemma larger_shock_never_helps_witness :
  (0 <= 500000)%Z /\
  curve_below (simulation_data (simulate 6 "Paying Rent (₹10k/mo)" 500000))
              (simulation_data (simulate 6 "Paying Rent (₹10k/mo)" 0)) /\
  no_later (depletion_age (simulate 6 "Paying Rent (₹10k/mo)" 500000))
           (depletion_age (simulate 6 "Paying Rent (₹10k/mo)" 0)).
Proof.
  split; [lia |].
  apply (larger_shock_never_helps 6 "Paying Rent (₹10k/mo)" 0 500000). lia.
Defined.

(** X4: paying rent never raises a point of the wealth curve and never delays
    the recorded depletion age, compared with any other option string, as
    long as the compounding base [1 + inflation/100] is not negative. *)
Theorem paying_rent_never_helps
    (inflation : Q) (rent_strategy : string) (medical_shock : Z) :
  -100 <= inflation ->
  curve_below
    (simulation_data (simulate inflation "Paying Rent (₹10k/mo)" medical_shock))
    (simulation_data (simulate inflation rent_strategy medical_shock)) /\
  no_later
    (depletion_age (simulate inflation "Paying Rent (₹10k/mo)" medical_shock))
    (depletion_age (simulate inflation rent_strategy medical_shock)).
Proof.
  intros Hbase. apply ordered_simulate. intros m. unfold annual_expense.
  replace (Z.of_nat (S m) - 1)%Z with (Z.of_nat m) by lia.
  assert (H0 : 0 <= 1 + inflation / 100) by qlra.
  pose proof (Qpower_0_le _ (Z.of_nat m) H0) as Hpow.
  assert (Hrent : inject_Z (total_expense_y1 rent_strategy)
                  <= inject_Z (total_expense_y1 "Paying Rent (₹10k/mo)")).
  { apply inject_Z_le_const.
    unfold total_expense_y1, rent_expense, base_living_expense.
    destruct (String.eqb rent_strategy "Paying Rent (₹10k/mo)"); simpl; lia. }
  pose proof (Qmult_le_compat_r _ _ _ Hrent Hpow) as Hmul.
  destruct (Z.of_nat (S m) =? 5)%Z; lra.
Qed.

Lemma paying_rent_never_helps_witness :
  -100 <= 6 /\
  curve_below
    (simulation_data (simulate 6 "Paying Rent (₹10k/mo)" 0))
    (simulation_data (simulate 6 "Move to Family Home (₹0)" 0)) /\
  no_later
    (depletion_age (simulate 6 "Paying Rent (₹10k/mo)" 0))
    (depletion_age (simulate 6 "Move to Family Home (₹0)" 0)).
Proof.
  split; [discriminate |].
  apply (paying_rent_never_helps 6 "Move to Family Home (₹0)" 0). discriminate.
Defined.

(** X5: higher inflation never raises a point of the wealth curve: age by age
    the series at the higher rate lies on or below the series at the lower
    rate, as long as the lower rate is at least -100. *)
Theorem higher_inflation_lowers_curve
    (r1 r2 : Q) (rent_strategy : string) (medical_shock : Z) :
  -100 <= r1 -> r1 <= r2 ->
  curve_below (simulation_data (simulate r2 rent_strategy medical_shock))
              (simulation_data (simulate r1 rent_strategy medical_shock)).
Proof.
  intros Hbase Hle.
  assert (H0 : 0 <= 1 + r1 / 100) by qlra.
  assert (Hexp : forall m : nat,
             annual_expense r1 rent_strategy medical_shock (Z.of_nat (S m))
             <= annual_expense r2 rent_strategy medical_shock (Z.of_nat (S m))).
  { intros m. apply annual_expense_mono; assumption. }
  destruct (ordered_simulate r1 r2 rent_strategy rent_strategy
              medical_shock medical_shock Hexp) as [Hcurve _].
  exact Hcurve.
Qed.

Lemma higher_inflation_lowers_curve_witness :
  -100 <= 4 /\ 4 <= 10 /\
  curve_below (simulation_data (simulate 10 "Paying Rent (₹10k/mo)" 0))
              (simulation_data (simulate 4 "Paying Rent (₹10k/mo)" 0)).
Proof.
  split; [discriminate |]. split; [discriminate |].
  apply (higher_inflation_lowers_curve 4 10 "Paying Rent (₹10k/mo)" 0);
    discriminate.
Defined.

(** ** What the tab displays *)

Lemma ages_66_to_95 :
  Forall (fun a => 66 <= a <= 95)%Z
    [66; 67; 68; 69; 70; 71; 72; 73; 74; 75; 76; 77; 78; 79; 80; 81; 82; 83;
     84; 85; 86; 87; 88; 89; 90; 91; 92; 93; 94; 95]%Z.
Proof. repeat (constructor; [lia |]). constructor. Qed.

(** A recorded depletion age is the age of a point of the series. *)
Lemma depleted_age_in_series (inflation : Q) (rent_strategy : string)
    (medical_shock : Z) (a : Z) :
  depleted_at a (simulate inflation rent_strategy medical_shock) ->
  (66 <= a <= 95)%Z /\
  first_zero (simulation_data (simulate inflation rent_strategy medical_shock))
  = Some {| Age := a; Corpus := 0 |}.
Proof.
  intros (_ & _ & _ & pre & post & Hdata & Hpre & _). split.
  - pose proof (simulate_ages inflation rent_strategy medical_shock) as Hages.
    rewrite Hdata, map_app in Hages. simpl map in Hages.
    pose proof ages_66_to_95 as Hall. rewrite <- Hages in Hall.
    apply Forall_app in Hall. destruct Hall as [_ Hall].
    inversion Hall as [| ? ? Ha _]. exact Ha.
  - rewrite Hdata. apply first_zero_app; [exact Hpre | reflexivity].
Qed.

(** In the model the tab returns a view, and the view is one of two kinds. *)
Lemma view_of_series
    (inflation : Q) (rent_strategy : string) (medical_shock : Z) :
  exists view : sunita_view,
    sunita inflation rent_strategy medical_shock = Returned view /\
    ((m2_depletion_age view = PStr "95+" /\
      m2_delta view = "Safe"%string /\
      line_color view = "#10b981"%string /\
      Forall (fun p => 0 < Corpus p) (df_sunita view))
     \/
     (exists a : Z,
         m2_depletion_age view = PInt a /\
         (66 <= a <= 95)%Z /\
         m2_delta view = (if (a <? 80)%Z then "Critical" else "Safe")%string /\
         line_color view = "#ef4444"%string /\
         first_zero (df_sunita view) = Some {| Age := a; Corpus := 0 |})).
Proof.
  rewrite sunita_unfold.
  destruct (phase_simulate inflation rent_strategy medical_shock)
    as [(Hd & Hc & _ & Hall) | (a & Hdep)].
  - rewrite depletion_delta_not_red by (rewrite Hc; reflexivity).
    unfold bind. eexists. split; [reflexivity |]. left.
    cbn [m2_depletion_age m2_delta line_color df_sunita].
    rewrite Hc. split; [exact Hd |]. split; [reflexivity |].
    split; [reflexivity | exact Hall].
  - destruct (depleted_age_in_series _ _ _ a Hdep) as [Hrange Hfirst].
    destruct Hdep as (Hd & Hc & _).
    rewrite (depletion_delta_red _ a Hc Hd).
    unfold bind. eexists. split; [reflexivity |]. right. exists a.
    cbn [m2_depletion_age m2_delta line_color df_sunita].
    rewrite Hc. split; [exact Hd |]. split; [exact Hrange |].
    split; [reflexivity |]. split; [reflexivity | exact Hfirst].
Qed.

(** X6: whenever the tab renders, the three things it shows agree with the
    series it plots.  Either no point is at zero, and then the metric reads
    "95+", the badge "Safe" and the line is green; or the first point at zero
    has an age [a] between 66 and 95, and then the metric reads [a], the badge
    is "Critical" exactly when [a < 80], and the line is red. *)
Theorem display_matches_series
    (inflation : Q) (rent_strategy : string) (medical_shock : Z)
    (view : sunita_view) :
  sunita inflation rent_strategy medical_shock = Returned view ->
  (m2_depletion_age view = PStr "95+" /\
   m2_delta view = "Safe"%string /\
   line_color view = "#10b981"%string /\
   Forall (fun p => 0 < Corpus p) (df_sunita view))
  \/
  (exists a : Z,
      m2_depletion_age view = PInt a /\
      (66 <= a <= 95)%Z /\
      m2_delta view = (if (a <? 80)%Z then "Critical" else "Safe")%string /\
      line_color view = "#ef4444"%string /\
      first_zero (df_sunita view) = Some {| Age := a; Corpus := 0 |}).
Proof.
  intros Hview.
  destruct (view_of_series inflation rent_strategy medical_shock)
    as (v & Hv & Hshown).
  assert (E : Returned v = Returned view) by (rewrite <- Hv; exact Hview).
  injection E as <-. exact Hshown.
Qed.

Lemma display_matches_series_witness :
  exists view : sunita_view,
    sunita 6 "Paying Rent (₹10k/mo)" 0 = Returned view /\
    ((m2_depletion_age view = PStr "95+" /\
      m2_delta view = "Safe"%string /\
      line_color view = "#10b981"%string /\
      Forall (fun p => 0 < Corpus p) (df_sunita view))
     \/
     (exists a : Z,
         m2_depletion_age view = PInt a /\
         (66 <= a <= 95)%Z /\
         m2_delta view = (if (a <? 80)%Z then "Critical" else "Safe")%string /\
         line_color view = "#ef4444"%string /\
         first_zero (df_sunita view) = Some {| Age := a; Corpus := 0 |})).
Proof.
  destruct (sunita_returns 6 "Paying Rent (₹10k/mo)" 0) as (view & Hview & _).
  exists view. split; [exact Hview |].
  apply (display_matches_series 6 "Paying Rent (₹10k/mo)" 0 view Hview).
Defined.

(** At the highest rate of the slider no combination of the other two widgets
    runs out of money before age 72. *)
Lemma highest_rate_depletes (rent_strategy : string) (medical_shock : Z) :
  In rent_strategy rent_options -> In medical_shock medical_shock_options ->
  exists a : Z,
    depletion_age (loop 10 rent_strategy medical_shock (years_upto 30)) = PInt a /\
    (72 <= a)%Z.
Proof.
  intros Hrent Hshock. rewrite loop_normalized_age.
  destruct Hrent as [<- | [<- | []]];
    destruct Hshock as [<- | [<- | [<- | []]]];
    vm_compute; eexists; (split; [reflexivity | discriminate]).
Qed.

(** X7: within the widget ranges the run always depletes, at an age between
    72 and 79; so the metric never reads "95+", the badge always reads
    "Critical" and the line is always red. *)
Theorem valid_run_always_critical
    (inflation : Q) (rent_strategy : string) (medical_shock : Z) :
  valid_sunita inflation rent_strategy medical_shock ->
  exists (a : Z) (view : sunita_view),
    sunita inflation rent_strategy medical_shock = Returned view /\
    m2_depletion_age view = PInt a /\
    (72 <= a <= 79)%Z /\
    m2_delta view = "Critical"%string /\
    line_color view = "#ef4444"%string.
Proof.
  intros Hvalid.
  destruct (valid_runs_deplete _ _ _ Hvalid) as (a & Hage & Hmax).
  pose proof (valid_base_nonneg _ _ _ Hvalid) as Hbase.
  destruct Hvalid as ([_ Hle10] & Hrent & Hshock).
  destruct (highest_rate_depletes rent_strategy medical_shock Hrent Hshock)
    as (a10 & Hage10 & Hmin).
  destruct (runs_ordered inflation 10 rent_strategy medical_shock Hbase Hle10 30)
    as [_ Hlater].
  pose proof Hage as Hage'. rewrite simulate_years_upto in Hage'.
  rewrite Hage', Hage10 in Hlater.
  destruct Hlater as (a' & E & Hle). injection E as <-.
  destruct (phase_int _ _ (phase_simulate inflation rent_strategy medical_shock)
              Hage) as (_ & Hc & _).
  exists a. rewrite sunita_unfold, (depletion_delta_red _ a Hc Hage).
  unfold bind. eexists. split; [reflexivity |].
  cbn [m2_depletion_age m2_delta line_color]. rewrite Hc.
  split; [exact Hage |]. split; [lia |]. split; [| reflexivity].
  replace (a <? 80)%Z with true by lia. reflexivity.
Qed.

Lemma valid_run_always_critical_witness :
  valid_sunita 6 "Paying Rent (₹10k/mo)" 0 /\
  exists (a : Z) (view : sunita_view),
    sunita 6 "Paying Rent (₹10k/mo)" 0 = Returned view /\
    m2_depletion_age view = PInt a /\
    (72 <= a <= 79)%Z /\
    m2_delta view = "Critical"%string /\
    line_color view = "#ef4444"%string.
Proof.
  assert (Hv : valid_sunita 6 "Paying Rent (₹10k/mo)" 0).
  { split; [split; discriminate |]. split; simpl; auto. }
  split; [exact Hv |].
  apply (valid_run_always_critical 6 "Paying Rent (₹10k/mo)" 0 Hv).
Defined.

(** ** Outside the widget ranges: a corpus that is never touched *)

Section Covered.

Variable inflation : Q.
Variable rent_strategy : string.
Variable medical_shock : Z.

(** No inflation (or deflation), no rent, and a shock of at most 15,000. *)
Hypothesis rate_low : -100 <= inflation.
Hypothesis rate_high : inflation <= 0.
Hypothesis no_rent : rent_strategy <> "Paying Rent (₹10k/mo)"%string.
Hypothesis small_shock : (medical_shock <= 15000)%Z.

Notation run := (loop inflation rent_strategy medical_shock).



End Covered.



(** * Witnesses for the binary64 checks

    X15 is [binary64_is_safe_agrees] and X16 is [binary64_ratio_decreases]. *)

Lemma binary64_is_safe_agrees_witness :
  (0 <= 45 <= 50)%Z /\ Binary64.is_safe 45 = is_safe 45.
Proof.
  split; [lia | apply (binary64_is_safe_agrees 45); lia].
Defined.

Lemma binary64_ratio_decreases_witness :
  (0 <= 10 < 15)%Z /\ (15 <= 15)%Z /\
  (Binary64.solvency_ratio 15 <? Binary64.solvency_ratio 10)%float = true.
Proof.
  split; [lia |]. split; [lia |].
  apply (binary64_ratio_decreases 10 15); lia.
Defined.
